(** * GalleryAPI: the product controller, its schema and the error middleware

    A shallow embedding of
      - [backend/models/Product.js]            (the Mongoose schema),
      - [backend/controllers/productController.js] (the six handlers),
      - [backend/middleware/errorHandler.js]   (the error-to-status mapping),
    followed by the properties of the catalog that the specification states.

    Conventions of the embedding.
      - A JavaScript string is a [string] of 8-bit characters, one character
        per UTF-16 code unit (Latin-1 text); [String.length] is [.length].
      - [undefined] is [None].
      - Integers produced by [parseInt] and the pagination arithmetic are
        exact integers of [Z]; doubles agree with them below 2^53.
      - The document store is a finite map from [_id] to document, the image
        store a finite set of public ids.  Handlers are state transformers
        over both; a rejected promise is a thrown [JsError].
      - What the outside world decides during one request (the clock, the
        fresh [_id], whether Cloudinary answers) is passed in as an [IO]
        record.
      - Requests are served one at a time and the document store itself
        does not fail: the exceptions are the ones Mongoose and MongoDB
        raise on the data (a failed cast, a failed validation, a duplicate
        [_id], a negative skip) and the rejections of Cloudinary.
      - Mongoose runs the setters and validators of the schema in [save()]
        and, with [runValidators: true], in [findByIdAndUpdate] on the
        paths the update sets. *)

From Stdlib Require Import ZArith QArith Ascii String.
From stdpp Require Import gmap strings list fin_maps sorting pretty.

Local Open Scope Z_scope.

(** ** JavaScript primitives used by the controller *)

Module Js.

(** Truthiness of a possibly-undefined string: [undefined] and [""] are falsy. *)
Definition truthy (v : option string) : bool :=
  match v with
  | None => false
  | Some s => negb (String.eqb s "")
  end.

(** [a || b] on possibly-undefined strings, [b] being a string. *)
Definition or_else (a : option string) (b : string) : string :=
  match a with
  | Some s => if String.eqb s "" then b else s
  | None => b
  end.

(** WhiteSpace and LineTerminator code points below 256:
    TAB, LF, VT, FF, CR, SP and NBSP. *)
Definition is_ws (c : ascii) : bool :=
  let n := nat_of_ascii c in
  ((9 <=? n)%nat && (n <=? 13)%nat) || (n =? 32)%nat || (n =? 160)%nat.

Fixpoint ltrim (s : string) : string :=
  match s with
  | EmptyString => EmptyString
  | String c r => if is_ws c then ltrim r else s
  end.

Fixpoint rtrim (s : string) : string :=
  match s with
  | EmptyString => EmptyString
  | String c r =>
      match rtrim r with
      | EmptyString => if is_ws c then EmptyString else String c EmptyString
      | r' => String c r'
      end
  end.

(** [String.prototype.trim]. *)
Definition trim (s : string) : string := rtrim (ltrim s).

(** Value of a character as a digit in bases up to 36. *)
Definition digit_value (c : ascii) : option Z :=
  let n := Z.of_nat (nat_of_ascii c) in
  if (48 <=? n) && (n <=? 57) then Some (n - 48)
  else if (97 <=? n) && (n <=? 122) then Some (n - 87)
  else if (65 <=? n) && (n <=? 90) then Some (n - 55)
  else None.

(** The longest prefix of radix-[R] digits, as a number; [acc] is [None]
    until a first digit has been read. *)
Fixpoint parse_digits (R : Z) (s : string) (acc : option Z) : option Z :=
  match s with
  | EmptyString => acc
  | String c r =>
      match digit_value c with
      | Some d =>
          if d <? R
          then parse_digits R r (Some (match acc with Some a => a * R + d | None => d end))
          else acc
      | None => acc
      end
  end.

(** [ToString] of a possibly-undefined string. *)
Definition ToString (v : option string) : string :=
  match v with
  | Some s => s
  | None => "undefined"
  end.

(** [parseInt(v)] without a radix argument; [None] is NaN. *)
Definition parseInt (v : option string) : option Z :=
  let S0 := ltrim (ToString v) in
  let '(sign, S1) :=
    match S0 with
    | String "-" r => (-1, r)
    | String "+" r => (1, r)
    | _ => (1, S0)
    end in
  let '(R, S2) :=
    match S1 with
    | String "0" (String "x" r) => (16, r)
    | String "0" (String "X" r) => (16, r)
    | _ => (10, S1)
    end in
  match parse_digits R S2 None with
  | Some n => Some (sign * n)
  | None => None
  end.

(** [n || d] on a number that may be NaN: NaN and 0 are falsy. *)
Definition num_or (n : option Z) (d : Z) : Z :=
  match n with
  | Some 0 => d
  | Some k => k
  | None => d
  end.

(** [Math.ceil(a / b)] for integers [a], [b] with [b <> 0]. *)
Definition ceil_div (a b : Z) : Z := - ((- a) / b).

(** A JavaScript number as [parseFloat] can return it. *)
Inductive Number :=
| NaN
| NegInfinity
| PosInfinity
| Finite (q : Q).

Definition isNaN (n : Number) : bool :=
  match n with NaN => true | _ => false end.

(** [n < 0]. *)
Definition lt_zero (n : Number) : bool :=
  match n with
  | NegInfinity => true
  | Finite q => (Qnum q <? 0)
  | _ => false
  end.

(** [s.charAt(0).toUpperCase() + s.slice(1)] on Latin letters a-z. *)
Definition capitalize (s : string) : string :=
  match s with
  | EmptyString => EmptyString
  | String c r =>
      let n := nat_of_ascii c in
      if ((97 <=? n)%nat && (n <=? 122)%nat)%bool
      then String (ascii_of_nat (n - 32)) r
      else s
  end.

Fixpoint join (sep : string) (l : list string) : string :=
  match l with
  | [] => ""
  | [x] => x
  | x :: r => x +:+ sep +:+ join sep r
  end.

End Js.

(** ** Data model *)

(** An [ObjectId] in its 24-digit hexadecimal rendering; [toString] reads it. *)
Abbreviation ObjectId := string (only parsing).

Definition toString (o : ObjectId) : string := o.

Module User.
Record t := mk {
  _id : ObjectId;
  username : string;
  email : string;
  shopName : option string
}.
End User.

(** A stored product document, as [models/Product.js] types it
    ([timestamps: true] adds [createdAt] and [updatedAt]). *)
Module Product.
Record t := mk {
  _id : ObjectId;
  title : string;
  description : string;
  imageURL : string;
  imagePublicId : string;
  shopId : ObjectId;
  category : string;
  price : option Js.Number;
  inStock : bool;
  createdAt : Z;
  updatedAt : Z
}.
End Product.

(** The object handed to [new Product({...})], before casting and validation. *)
Module Draft.
Record t := mk {
  title : option string;
  description : option string;
  imageURL : option string;
  imagePublicId : option string;
  shopId : option ObjectId;
  category : option string;
  price : option Js.Number;
  inStock : option bool
}.
End Draft.

(** [updateData] of [updateProduct]; the two image paths are present only
    when a file came with the request. *)
Module UpdateData.
Record t := mk {
  title : string;
  description : string;
  category : string;
  price : option Js.Number;
  inStock : bool;
  imageURL : option string;
  imagePublicId : option string
}.
End UpdateData.

(** [req.body] of a multipart product request: text fields. *)
Module Body.
Record t := mk {
  title : option string;
  description : option string;
  category : option string;
  price : option string;
  inStock : option string
}.
End Body.

(** [req.query] of the listing routes. *)
Module Query.
Record t := mk {
  page : option string;
  limit : option string;
  category : option string;
  search : option string;
  shopId : option string
}.
End Query.

(** [req.file] as multer's memory storage leaves it. *)
Record File := { originalname : string; buffer : string }.

Module Params.
Record t := mk { id : string; category : string }.
End Params.

(** The Express request; [user] is what the authentication middleware
    attached (absent on public routes). *)
Record Req := {
  params : Params.t;
  query : Query.t;
  body : Body.t;
  file : option File;
  user : option User.t
}.

(** A thrown value or rejected promise, with the properties the error
    middleware inspects; [keyValue] and [errors] are absent on the errors
    that do not carry them. *)
Inductive ErrCode := NoCode | NumCode (n : Z) | StrCode (s : string).

Record JsError := {
  name : string;
  message : string;
  code : ErrCode;
  keyValue : option (list (string * string));
  errors : option (list (string * string));
  statusCode : option Z;
  isMulterError : bool
}.

Definition ValidationError (errs : list (string * string)) : JsError :=
  {| name := "ValidationError"; message := "Validation failed";
     code := NoCode; keyValue := None; errors := Some errs; statusCode := None;
     isMulterError := false |}.

Definition CastError (value : string) : JsError :=
  {| name := "CastError"; message := "Cast to ObjectId failed for value " +:+ value;
     code := NoCode; keyValue := None; errors := None; statusCode := None;
     isMulterError := false |}.

Definition DuplicateKeyError (id : ObjectId) : JsError :=
  {| name := "MongoServerError"; message := "E11000 duplicate key error";
     code := NumCode 11000; keyValue := Some [("_id", id)]; errors := None;
     statusCode := None;
     isMulterError := false |}.

Definition MongoServerError (msg : string) : JsError :=
  {| name := "MongoServerError"; message := msg;
     code := NoCode; keyValue := None; errors := None; statusCode := None;
     isMulterError := false |}.

Definition TypeError (msg : string) : JsError :=
  {| name := "TypeError"; message := msg;
     code := NoCode; keyValue := None; errors := None; statusCode := None;
     isMulterError := false |}.

(** What Node throws when a response is written with a status code
    outside 100..999. *)
Definition InvalidStatusCode (n : Z) : JsError :=
  {| name := "RangeError"; message := "Invalid status code: " +:+ pretty n;
     code := StrCode "ERR_HTTP_INVALID_STATUS_CODE"; keyValue := None; errors := None;
     statusCode := None; isMulterError := false |}.

(** Result of a successful Cloudinary upload. *)
Record UploadResult := { secure_url : string; public_id : string }.

(** The owner summary that [populate('shopId', fields)] puts in place of the
    reference; [o_email] is selected by [getProduct] only. *)
Record Owner := {
  o_id : ObjectId;
  o_username : string;
  o_shopName : option string;
  o_email : option string
}.

(** A product as it is serialised in a response: the document and the
    populated owner ([None] when the user document is gone). *)
Record View := { doc : Product.t; owner : option Owner }.

Record Pagination := { pg_page : Z; pg_pages : Z; pg_total : Z; pg_limit : Z }.

Inductive Data :=
| NoData
| OneProduct (v : option View)
| ProductPage (products : list View) (pagination : Pagination).

(** [res.status(s).json({ success, message, data })]. *)
Record Response := {
  status : Z;
  success : bool;
  res_message : option string;
  data : Data
}.

(** The two stores. *)
Record World := {
  products : gmap string Product.t;
  users : gmap string User.t;
  assets : gset string
}.

(** What the environment decides during one request. *)
Record IO := {
  now : Z;
  newObjectId : ObjectId;
  upload_stream : File -> JsError + UploadResult;
  destroy : string -> option JsError
}.

(** ** Computations: state of the two stores, and exceptions *)

Definition M (A : Type) : Type := World -> (JsError + A) * World.

Definition ret {A} (a : A) : M A := fun w => (inr a, w).

Definition throw {A} (e : JsError) : M A := fun w => (inl e, w).

Definition bind {A B} (m : M A) (k : A -> M B) : M B :=
  fun w => match m w with
           | (inl e, w') => (inl e, w')
           | (inr a, w') => k a w'
           end.

(** [try { body } catch (error) { handler }], run to a response. *)
Definition try_catch (body : M Response) (handler : JsError -> Response)
  : World -> Response * World :=
  fun w => match body w with
           | (inl e, w') => (handler e, w')
           | (inr r, w') => (r, w')
           end.

(** Reading and writing the stores. *)
Definition gets {A} (f : World -> A) : M A := fun w => (inr (f w), w).

Definition modify (f : World -> World) : M () := fun w => (inr (), f w).

Global Instance M_ret : MRet M := @ret.
Global Instance M_bind : MBind M := fun A B k m => bind m k.

(** ** The schema of [models/Product.js] *)

Module Schema.

Definition categories : list string :=
  ["Electronics"; "Fashion"; "Home & Garden"; "Sports"; "Books"; "Toys";
   "Health & Beauty"; "Food & Beverages"; "Automotive"; "Other"].

Definition enum_message : string :=
  "Category must be one of: Electronics, Fashion, Home & Garden, Sports, Books, Toys, Health & Beauty, Food & Beverages, Automotive, Other".

(** A validator answers with its message when the value fails it. *)
Definition required (msg : string) (v : option string) : option string :=
  if Js.truthy v then None else Some msg.

Definition maxlength (n : nat) (msg : string) (v : option string) : option string :=
  match v with
  | Some s => if (n <? String.length s)%nat then Some msg else None
  | None => None
  end.

Definition enum (values : list string) (msg : string) (v : option string)
  : option string :=
  match v with
  | Some s => if bool_decide (s ∈ values) then None else Some msg
  | None => None
  end.

(** [min: [0, msg]] on a number that passed casting; NaN does not cast. *)
Definition number_min0 (msg : string) (v : option Js.Number) : option string :=
  match v with
  | Some n =>
      if Js.isNaN n then Some "Cast to Number failed"
      else if Js.lt_zero n then Some msg else None
  | None => None
  end.

(** The validators of one path run in order; the first failure is the
    error recorded for the path. *)
Fixpoint first_failure (checks : list (option string)) : option string :=
  match checks with
  | [] => None
  | Some m :: _ => Some m
  | None :: r => first_failure r
  end.

Definition path_errors (path : string) (checks : list (option string))
  : list (string * string) :=
  match first_failure checks with
  | Some m => [(path, m)]
  | None => []
  end.

Definition title_errors (v : option string) :=
  path_errors "title"
    [required "Product title is required" v;
     maxlength 100 "Title cannot exceed 100 characters" v].

Definition description_errors (v : option string) :=
  path_errors "description"
    [required "Product description is required" v;
     maxlength 1000 "Description cannot exceed 1000 characters" v].

Definition imageURL_errors (v : option string) :=
  path_errors "imageURL" [required "Product image is required" v].

Definition imagePublicId_errors (v : option string) :=
  path_errors "imagePublicId" [required "Path `imagePublicId` is required." v].

Definition shopId_errors (v : option ObjectId) :=
  path_errors "shopId"
    [match v with None => Some "Shop ID is required" | Some _ => None end].

Definition category_errors (v : option string) :=
  path_errors "category"
    [required "Product category is required" v; enum categories enum_message v].

Definition price_errors (v : option Js.Number) :=
  path_errors "price" [number_min0 "Price cannot be negative" v].

(** The setters: [trim: true] on [title] and [description]. *)
Definition cast (d : Draft.t) : Draft.t :=
  {| Draft.title := Js.trim <$> Draft.title d;
     Draft.description := Js.trim <$> Draft.description d;
     Draft.imageURL := Draft.imageURL d;
     Draft.imagePublicId := Draft.imagePublicId d;
     Draft.shopId := Draft.shopId d;
     Draft.category := Draft.category d;
     Draft.price := Draft.price d;
     Draft.inStock := Draft.inStock d |}.

(** Document validation, as [save()] runs it on a cast draft. *)
Definition validate (d : Draft.t) : list (string * string) :=
  title_errors (Draft.title d) ++
  description_errors (Draft.description d) ++
  imageURL_errors (Draft.imageURL d) ++
  imagePublicId_errors (Draft.imagePublicId d) ++
  shopId_errors (Draft.shopId d) ++
  category_errors (Draft.category d) ++
  price_errors (Draft.price d).

(** The stored document of a cast draft; [inStock] has [default: true]. *)
Definition to_document (d : Draft.t) (id : ObjectId) (now : Z) : Product.t :=
  {| Product._id := id;
     Product.title := default "" (Draft.title d);
     Product.description := default "" (Draft.description d);
     Product.imageURL := default "" (Draft.imageURL d);
     Product.imagePublicId := default "" (Draft.imagePublicId d);
     Product.shopId := default "" (Draft.shopId d);
     Product.category := default "" (Draft.category d);
     Product.price := Draft.price d;
     Product.inStock := default true (Draft.inStock d);
     Product.createdAt := now;
     Product.updatedAt := now |}.

(** Setters applied to an update. *)
Definition cast_update (u : UpdateData.t) : UpdateData.t :=
  {| UpdateData.title := Js.trim (UpdateData.title u);
     UpdateData.description := Js.trim (UpdateData.description u);
     UpdateData.category := UpdateData.category u;
     UpdateData.price := UpdateData.price u;
     UpdateData.inStock := UpdateData.inStock u;
     UpdateData.imageURL := UpdateData.imageURL u;
     UpdateData.imagePublicId := UpdateData.imagePublicId u |}.

(** Update validators ([runValidators: true]): the validators of the paths
    the update sets. *)
Definition validate_update (u : UpdateData.t) : list (string * string) :=
  title_errors (Some (UpdateData.title u)) ++
  description_errors (Some (UpdateData.description u)) ++
  category_errors (Some (UpdateData.category u)) ++
  price_errors (UpdateData.price u) ++
  match UpdateData.imageURL u with
  | Some v => imageURL_errors (Some v)
  | None => []
  end ++
  match UpdateData.imagePublicId u with
  | Some v => imagePublicId_errors (Some v)
  | None => []
  end.

(** [$set] of a cast update on a stored document; an [undefined] price is
    not part of the update. *)
Definition apply_update (u : UpdateData.t) (now : Z) (p : Product.t) : Product.t :=
  {| Product._id := Product._id p;
     Product.title := UpdateData.title u;
     Product.description := UpdateData.description u;
     Product.imageURL := default (Product.imageURL p) (UpdateData.imageURL u);
     Product.imagePublicId := default (Product.imagePublicId p) (UpdateData.imagePublicId u);
     Product.shopId := Product.shopId p;
     Product.category := UpdateData.category u;
     Product.price :=
       match UpdateData.price u with
       | Some n => Some n
       | None => Product.price p
       end;
     Product.inStock := UpdateData.inStock u;
     Product.createdAt := Product.createdAt p;
     Product.updatedAt := now |}.

End Schema.

(** ** The stores and the controller *)

Definition set_products (w : World) (m : gmap string Product.t) : World :=
  {| products := m; users := users w; assets := assets w |}.

Definition set_assets (w : World) (a : gset string) : World :=
  {| products := products w; users := users w; assets := a |}.

(** [res.status(s).json({ success, message })] and with [data]. *)
Definition json (s : Z) (ok : bool) (msg : string) : Response :=
  {| status := s; success := ok; res_message := Some msg; data := NoData |}.

Definition json_data (s : Z) (ok : bool) (msg : option string) (d : Data) : Response :=
  {| status := s; success := ok; res_message := msg; data := d |}.

(** The filter object built by the listing handlers. *)
Record Filter := {
  f_category : option string;
  f_shopId : option string;
  f_text : option string
}.

Section Controller.

(** Library behaviour the repository does not define: how Mongoose casts a
    string to an [ObjectId] ([None]: the cast fails), which documents a
    MongoDB [$text] search selects, and [parseFloat]. *)
Variable castObjectId : string -> option ObjectId.
Variable textSearch : string -> Product.t -> bool.
Variable parseFloat : string -> Js.Number.

(** *** Cloudinary *)

(** [uploadToCloudinary(file)]: the promise resolves with the upload result
    and the asset is stored, or rejects. *)
Definition uploadToCloudinary (io : IO) (f : File) : M UploadResult :=
  match upload_stream io f with
  | inl error => throw error
  | inr result =>
      modify (fun w => set_assets w ({[public_id result]} ∪ assets w));;
      mret result
  end.

(** [cloudinary.uploader.destroy(publicId)]: resolves (whether or not the
    asset existed) and the asset is gone, or rejects and nothing changed. *)
Definition cloudinary_destroy (io : IO) (publicId : string) : M () :=
  match destroy io publicId with
  | Some error => throw error
  | None => modify (fun w => set_assets w (assets w ∖ {[publicId]}))
  end.

(** *** The Product model *)

Definition cast_id (id : string) : M ObjectId :=
  match castObjectId id with
  | Some oid => mret oid
  | None => throw (CastError id)
  end.

Definition findById (id : string) : M (option Product.t) :=
  oid ← cast_id id;
  gets (fun w => products w !! oid).

(** [new Product(d)] followed by [save()]. *)
Definition save (io : IO) (d : Draft.t) : M Product.t :=
  let d := Schema.cast d in
  match Schema.validate d with
  | [] =>
      let p := Schema.to_document d (newObjectId io) (now io) in
      existing ← gets (fun w => products w !! newObjectId io);
      match existing with
      | Some _ => throw (DuplicateKeyError (newObjectId io))
      | None =>
          modify (fun w => set_products w (<[newObjectId io := p]> (products w)));;
          mret p
      end
  | errs => throw (ValidationError errs)
  end.

(** [findByIdAndUpdate(id, u, { new: true, runValidators: true })]. *)
Definition findByIdAndUpdate (io : IO) (id : string) (u : UpdateData.t)
  : M (option Product.t) :=
  oid ← cast_id id;
  let u := Schema.cast_update u in
  match UpdateData.price u with
  | Some Js.NaN => throw (CastError "NaN")
  | _ =>
      match Schema.validate_update u with
      | [] =>
          existing ← gets (fun w => products w !! oid);
          match existing with
          | Some p =>
              let p' := Schema.apply_update u (now io) p in
              modify (fun w => set_products w (<[oid := p']> (products w)));;
              mret (Some p')
          | None => mret None
          end
      | errs => throw (ValidationError errs)
      end
  end.

Definition findByIdAndDelete (id : string) : M (option Product.t) :=
  oid ← cast_id id;
  existing ← gets (fun w => products w !! oid);
  modify (fun w => set_products w (delete oid (products w)));;
  mret existing.

(** Does a document satisfy a filter whose [shopId] has been cast? *)
Definition matches (category : option string) (shop : option ObjectId)
  (text : option string) (p : Product.t) : bool :=
  match category with Some c => String.eqb (Product.category p) c | None => true end
  && match shop with Some o => String.eqb (Product.shopId p) o | None => true end
  && match text with Some t => textSearch t p | None => true end.

(** The documents a filter selects; casting the filter can fail. *)
Definition select (f : Filter) : M (list Product.t) :=
  shop ← match f_shopId f with
         | Some s => oid ← cast_id s; mret (Some oid)
         | None => mret None
         end;
  gets (fun w =>
          filter (fun p => matches (f_category f) shop (f_text f) p = true)
            (map_to_list (products w)).*2).

(** [{ createdAt: -1 }]: newer documents first. *)
Definition newer_first (p q : Product.t) : Prop :=
  Product.createdAt q ≤ Product.createdAt p.

Global Instance newer_first_dec : RelDecision newer_first.
Proof. intros p q. unfold newer_first. apply _. Defined.

(** [cursor.skip(n)]: the server rejects a negative skip. *)
Definition skip (n : Z) (l : list Product.t) : M (list Product.t) :=
  if n <? 0 then throw (MongoServerError "Skip value must be non-negative")
  else mret (drop (Z.to_nat n) l).

(** [cursor.limit(n)]: 0 is no limit, a negative limit is its absolute
    value. *)
Definition limit (n : Z) (l : list Product.t) : list Product.t :=
  if n =? 0 then l else take (Z.to_nat (Z.abs n)) l.

(** [populate('shopId', fields)]. *)
Definition populate (with_email : bool) (p : Product.t) : M View :=
  gets (fun w =>
          {| doc := p;
             owner :=
               (fun u => {| o_id := User._id u;
                            o_username := User.username u;
                            o_shopName := User.shopName u;
                            o_email := if with_email then Some (User.email u) else None |})
                 <$> users w !! Product.shopId p |}).

Fixpoint populate_all (l : list Product.t) : M (list View) :=
  match l with
  | [] => mret []
  | p :: r => v ← populate false p; vs ← populate_all r; mret (v :: vs)
  end.

(** [Product.find(f).populate(..).sort({ createdAt: -1 }).skip(s).limit(n)]. *)
Definition find (f : Filter) (s n : Z) : M (list View) :=
  l ← select f;
  l ← skip s (merge_sort newer_first l);
  populate_all (limit n l).

Definition countDocuments (f : Filter) : M Z :=
  l ← select f;
  mret (Z.of_nat (length l)).

(** [req.user._id]; reading it when no user is attached throws. *)
Definition req_user_id (req : Req) : M ObjectId :=
  match user req with
  | Some u => mret (User._id u)
  | None => throw (TypeError "Cannot read properties of undefined (reading '_id')")
  end.

(** [inStock === 'false' ? false : true]. *)
Definition inStock_of (v : option string) : bool :=
  match v with
  | Some s => if String.eqb s "false" then false else true
  | None => true
  end.

(** *** [createProduct] *)
Definition createProduct (req : Req) (io : IO) : World -> Response * World :=
  try_catch
    (let '(Body.mk title description category price inStock) := body req in
     match file req with
     | None => mret (json 400 false "Product image is required")
     | Some f =>
         uploadResult ← uploadToCloudinary io f;
         uid ← req_user_id req;
         product ← save io
           {| Draft.title := title;
              Draft.description := description;
              Draft.imageURL := Some (secure_url uploadResult);
              Draft.imagePublicId := Some (public_id uploadResult);
              Draft.shopId := Some uid;
              Draft.category := category;
              Draft.price :=
                if Js.truthy price then parseFloat <$> price else None;
              Draft.inStock := Some (inStock_of inStock) |};
         product ← populate false product;
         mret (json_data 201 true (Some "Product created successfully")
                 (OneProduct (Some product)))
     end)
    (fun error => json 500 false "Server error creating product").

(** *** [getProducts] *)
Definition getProducts (req : Req) (io : IO) : World -> Response * World :=
  try_catch
    (let q := query req in
     let page := Js.num_or (Js.parseInt (Query.page q)) 1 in
     let limit := Js.num_or (Js.parseInt (Query.limit q)) 10 in
     let skip := (page - 1) * limit in
     let filter :=
       {| f_category := if Js.truthy (Query.category q) then Query.category q else None;
          f_shopId := if Js.truthy (Query.shopId q) then Query.shopId q else None;
          f_text := if Js.truthy (Query.search q) then Query.search q else None |} in
     products ← find filter skip limit;
     total ← countDocuments filter;
     mret (json_data 200 true None
             (ProductPage products
                {| pg_page := page; pg_pages := Js.ceil_div total limit;
                   pg_total := total; pg_limit := limit |})))
    (fun error => json 500 false "Server error fetching products").

(** *** [getProduct] *)
Definition getProduct (req : Req) (io : IO) : World -> Response * World :=
  try_catch
    (product ← findById (Params.id (params req));
     match product with
     | None => mret (json 404 false "Product not found")
     | Some product =>
         product ← populate true product;
         mret (json_data 200 true None (OneProduct (Some product)))
     end)
    (fun error => json 500 false "Server error fetching product").

(** *** [updateProduct] *)
Definition updateProduct (req : Req) (io : IO) : World -> Response * World :=
  try_catch
    (product ← findById (Params.id (params req));
     match product with
     | None => mret (json 404 false "Product not found")
     | Some product =>
         uid ← req_user_id req;
         if negb (String.eqb (toString (Product.shopId product)) (toString uid))
         then mret (json 403 false "Access denied. You can only update your own products.")
         else
           let '(Body.mk title description category price inStock) := body req in
           let updateData :=
             {| UpdateData.title := Js.or_else title (Product.title product);
                UpdateData.description := Js.or_else description (Product.description product);
                UpdateData.category := Js.or_else category (Product.category product);
                UpdateData.price :=
                  match price with
                  | Some s => Some (parseFloat s)
                  | None => Product.price product
                  end;
                UpdateData.inStock :=
                  match inStock with
                  | Some _ => inStock_of inStock
                  | None => Product.inStock product
                  end;
                UpdateData.imageURL := None;
                UpdateData.imagePublicId := None |} in
           updateData ←
             match file req with
             | Some f =>
                 (if Js.truthy (Some (Product.imagePublicId product))
                  then cloudinary_destroy io (Product.imagePublicId product)
                  else mret ());;
                 uploadResult ← uploadToCloudinary io f;
                 mret {| UpdateData.title := UpdateData.title updateData;
                         UpdateData.description := UpdateData.description updateData;
                         UpdateData.category := UpdateData.category updateData;
                         UpdateData.price := UpdateData.price updateData;
                         UpdateData.inStock := UpdateData.inStock updateData;
                         UpdateData.imageURL := Some (secure_url uploadResult);
                         UpdateData.imagePublicId := Some (public_id uploadResult) |}
             | None => mret updateData
             end;
           updatedProduct ← findByIdAndUpdate io (Params.id (params req)) updateData;
           updatedProduct ←
             match updatedProduct with
             | Some p => v ← populate false p; mret (Some v)
             | None => mret None
             end;
           mret (json_data 200 true (Some "Product updated successfully")
                   (OneProduct updatedProduct))
     end)
    (fun error => json 500 false "Server error updating product").

(** *** [deleteProduct] *)
Definition deleteProduct (req : Req) (io : IO) : World -> Response * World :=
  try_catch
    (product ← findById (Params.id (params req));
     match product with
     | None => mret (json 404 false "Product not found")
     | Some product =>
         uid ← req_user_id req;
         if negb (String.eqb (toString (Product.shopId product)) (toString uid))
         then mret (json 403 false "Access denied. You can only delete your own products.")
         else
           (if Js.truthy (Some (Product.imagePublicId product))
            then cloudinary_destroy io (Product.imagePublicId product)
            else mret ());;
           findByIdAndDelete (Params.id (params req));;
           mret (json 200 true "Product deleted successfully")
     end)
    (fun error => json 500 false "Server error deleting product").

(** *** [getProductsByCategory] *)
Definition getProductsByCategory (req : Req) (io : IO) : World -> Response * World :=
  try_catch
    (let category := Params.category (params req) in
     let page := Js.num_or (Js.parseInt (Query.page (query req))) 1 in
     let limit := Js.num_or (Js.parseInt (Query.limit (query req))) 10 in
     let skip := (page - 1) * limit in
     let filter := {| f_category := Some category; f_shopId := None; f_text := None |} in
     products ← find filter skip limit;
     total ← countDocuments filter;
     mret (json_data 200 true None
             (ProductPage products
                {| pg_page := page; pg_pages := Js.ceil_div total limit;
                   pg_total := total; pg_limit := limit |})))
    (fun error => json 500 false "Server error fetching products by category").

(** *** [routes/products.js] *)

Inductive Route :=
| POST_products               (* router.post('/', ..., createProduct) *)
| GET_products                (* router.get('/', getProducts) *)
| GET_products_category       (* router.get('/category/:category', ...) *)
| GET_products_id             (* router.get('/:id', getProduct) *)
| PUT_products_id             (* router.put('/:id', ..., updateProduct) *)
| DELETE_products_id.         (* router.delete('/:id', ..., deleteProduct) *)

Definition router (r : Route) : Req -> IO -> World -> Response * World :=
  match r with
  | POST_products => createProduct
  | GET_products => getProducts
  | GET_products_category => getProductsByCategory
  | GET_products_id => getProduct
  | PUT_products_id => updateProduct
  | DELETE_products_id => deleteProduct
  end.

(** One request served. *)
Definition serve (x : Route * Req * IO) (w : World) : World :=
  let '(r, req, io) := x in (router r req io w).2.

(** A sequence of requests served one after the other. *)
Fixpoint run (trace : list (Route * Req * IO)) (w : World) : World :=
  match trace with
  | [] => w
  | x :: rest => run rest (serve x w)
  end.

(** The product [id] is stored after every request of the trace: it is
    not deleted on the way. *)
Fixpoint kept (id : ObjectId) (trace : list (Route * Req * IO)) (w : World) : Prop :=
  match trace with
  | [] => True
  | x :: rest => is_Some (products (serve x w) !! id) ∧ kept id rest (serve x w)
  end.

End Controller.

(** ** The error middleware of [middleware/errorHandler.js] *)

(** The handler answers with a response, or throws itself:
    [Object.keys(err.keyValue)] throws when a duplicate-key error has no
    [keyValue], and [field.charAt] when [keyValue] names no key;
    [Object.values(err.errors)] throws when an error named
    [ValidationError] has no [errors]; and writing the response throws
    when the status code is outside 100..999.  The response is the call
    [res.status(s).json(...)] on a response not yet begun. *)
Definition errorHandler (err : JsError) : JsError + Response :=
  let error := (message err, statusCode err) in
  let error :=
    if String.eqb (name err) "CastError"
    then ("Resource not found", Some 404)
    else error in
  let error :=
    match code err with
    | NumCode 11000 =>
        match keyValue err with
        | Some ((field, _) :: _) =>
            inr (Js.capitalize field +:+ " already exists", Some 400)
        | Some [] =>
            inl (TypeError "Cannot read properties of undefined (reading 'charAt')")
        | None => inl (TypeError "Cannot convert undefined or null to object")
        end
    | _ => inr error
    end in
  match error with
  | inl e => inl e
  | inr error =>
      let error :=
        if String.eqb (name err) "ValidationError"
        then match errors err with
             | Some errs => inr (Js.join ", " errs.*2, Some 400)
             | None => inl (TypeError "Cannot convert undefined or null to object")
             end
        else inr error in
      match error with
      | inl e => inl e
      | inr error =>
          let error :=
            if isMulterError err then
              match code err with
              | StrCode "LIMIT_FILE_SIZE" =>
                  ("File too large. Maximum size is 5MB", Some 400)
              | _ => ("File upload error", Some 400)
              end
            else error in
          let status := Js.num_or error.2 500 in
          if (status <? 100) || (999 <? status)
          then inl (InvalidStatusCode status)
          else inr (json status false
                      (if String.eqb error.1 "" then "Server Error" else error.1))
      end
  end.

(** ** Notions used to state the properties *)

(** The ways one request can change the product store. *)
Inductive product_step (m : gmap string Product.t) : gmap string Product.t -> Prop :=
| step_same : product_step m m
| step_insert id d now :
    m !! id = None ->
    Schema.validate (Schema.cast d) = [] ->
    product_step m (<[id := Schema.to_document (Schema.cast d) id now]> m)
| step_update id p u now :
    m !! id = Some p ->
    Schema.validate_update (Schema.cast_update u) = [] ->
    product_step m (<[id := Schema.apply_update (Schema.cast_update u) now p]> m)
| step_delete id :
    product_step m (delete id m).

(** A stored document whose trimmed paths are trimmed, as every document
    written through the schema is. *)
Definition trimmed (p : Product.t) : Prop :=
  Js.trim (Product.title p) = Product.title p ∧
  Js.trim (Product.description p) = Product.description p.

(** All the stored documents, in the order the store enumerates them. *)
Definition all_products (w : World) : list Product.t :=
  (map_to_list (products w)).*2.

(** The listing filter in the words of the specification: category and
    owner match exactly, the text search selects the product, and the three
    are AND-combined; a criterion that is absent or empty does not filter. *)
Definition in_filter (castObjectId : string -> option ObjectId)
    (textSearch : string -> Product.t -> bool)
    (q : Query.t) (p : Product.t) : bool :=
  match Query.category q with
  | Some c => String.eqb c "" || String.eqb (Product.category p) c
  | None => true
  end
  && match Query.shopId q with
     | Some s => String.eqb s "" || bool_decide (castObjectId s = Some (Product.shopId p))
     | None => true
     end
  && match Query.search q with
     | Some t => String.eqb t "" || textSearch t p
     | None => true
     end.

(** The update that [updateProduct] hands to [findByIdAndUpdate] for the
    request body [b] and the stored [product]; [image] is the upload result
    when a file came with the request. *)
Definition update_of (parseFloat : string -> Js.Number) (b : Body.t)
    (product : Product.t) (image : option UploadResult) : UpdateData.t :=
  {| UpdateData.title := Js.or_else (Body.title b) (Product.title product);
     UpdateData.description := Js.or_else (Body.description b) (Product.description product);
     UpdateData.category := Js.or_else (Body.category b) (Product.category product);
     UpdateData.price :=
       match Body.price b with
       | Some s => Some (parseFloat s)
       | None => Product.price product
       end;
     UpdateData.inStock :=
       match Body.inStock b with
       | Some _ => inStock_of (Body.inStock b)
       | None => Product.inStock product
       end;
     UpdateData.imageURL := secure_url <$> image;
     UpdateData.imagePublicId := public_id <$> image |}.

(** A request body that violates a field constraint of the data model:
    title or description missing, blank or too long, category missing or
    outside the enumerated set, a negative price. *)
Definition violates_constraints (parseFloat : string -> Js.Number) (b : Body.t) : Prop :=
  Js.truthy (Js.trim <$> Body.title b) = false
  ∨ (∃ t, Body.title b = Some t ∧ (100 < String.length (Js.trim t))%nat)
  ∨ Js.truthy (Js.trim <$> Body.description b) = false
  ∨ (∃ d, Body.description b = Some d ∧ (1000 < String.length (Js.trim d))%nat)
  ∨ (∀ c, Body.category b = Some c -> c ∉ Schema.categories)
  ∨ (∃ s, Body.price b = Some s ∧ s ≠ "" ∧ Js.lt_zero (parseFloat s) = true).

(** The request [req] with the [inStock] form field set to [value], or
    without the field. *)
Definition with_inStock (value : option string) (req : Req) : Req :=
  {| params := params req; query := query req;
     body := {| Body.title := Body.title (body req);
                Body.description := Body.description (body req);
                Body.category := Body.category (body req);
                Body.price := Body.price (body req);
                Body.inStock := value |};
     file := file req; user := user req |}.

(** [n] is the ceiling of [a / b], for [b > 0]. *)
Definition is_ceiling (n a b : Z) : Prop := (n - 1) * b < a ∧ a <= n * b.

(** ** A small catalog to run the handlers on *)

Module Fixture.

Definition is_hex (c : ascii) : bool :=
  match Js.digit_value c with
  | Some d => d <? 16
  | None => false
  end.

Definition lower (c : ascii) : ascii :=
  let n := nat_of_ascii c in
  if ((65 <=? n)%nat && (n <=? 90)%nat)%bool then ascii_of_nat (n + 32) else c.

(** A string casts to an [ObjectId] when it is 24 hexadecimal digits. *)
Definition castObjectId (s : string) : option ObjectId :=
  if ((String.length s =? 24)%nat && forallb is_hex (list_ascii_of_string s))%bool
  then Some (string_of_list_ascii (map lower (list_ascii_of_string s)))
  else None.

(** A stand-in for the text index: the search text is the title. *)
Definition textSearch (t : string) (p : Product.t) : bool :=
  String.eqb t (Product.title p).

(** [parseFloat] on integer literals. *)
Definition parseFloat (s : string) : Js.Number :=
  match Js.parseInt (Some s) with
  | Some n => Js.Finite (inject_Z n)
  | None => Js.NaN
  end.

Definition alice : User.t :=
  User.mk "64b0f1a2c3d4e5f6a7b8c901" "alice" "alice@example.com" (Some "Alice's Shop").

Definition bob : User.t :=
  User.mk "64b0f1a2c3d4e5f6a7b8c902" "bob" "bob@example.com" None.

Definition lamp_id : ObjectId := "64b0f1a2c3d4e5f6a7b8c9a1".

Definition lamp : Product.t :=
  {| Product._id := lamp_id;
     Product.title := "Desk lamp";
     Product.description := "A lamp for the desk";
     Product.imageURL := "https://res.cloudinary.com/demo/image/upload/product-gallery/lamp.jpg";
     Product.imagePublicId := "product-gallery/lamp";
     Product.shopId := User._id alice;
     Product.category := "Home & Garden";
     Product.price := Some (Js.Finite (25 # 1));
     Product.inStock := true;
     Product.createdAt := 1000;
     Product.updatedAt := 1000 |}.

(** Alice owns one product, whose image is in the image store. *)
Definition world : World :=
  {| products := {[ lamp_id := lamp ]};
     users := {[ User._id alice := alice; User._id bob := bob ]};
     assets := {[ "product-gallery/lamp" ]} |}.

Definition empty_world : World :=
  {| products := ∅;
     users := {[ User._id alice := alice; User._id bob := bob ]};
     assets := ∅ |}.

Definition timeout : JsError :=
  {| name := "Error"; message := "Request Timeout"; code := NoCode;
     keyValue := None; errors := None; statusCode := None; isMulterError := false |}.

(** An error that carries its own status code. *)
Definition busy : JsError :=
  {| name := "Error"; message := "Service busy"; code := NoCode;
     keyValue := None; errors := None; statusCode := Some 503; isMulterError := false |}.

(** A duplicate-key error on the e-mail address of a user. *)
Definition duplicate_email : JsError :=
  {| name := "MongoServerError"; message := "E11000 duplicate key error";
     code := NumCode 11000; keyValue := Some [("email", "alice@example.com")];
     errors := None; statusCode := None; isMulterError := false |}.

Definition uploaded : UploadResult :=
  {| secure_url := "https://res.cloudinary.com/demo/image/upload/product-gallery/new.jpg";
     public_id := "product-gallery/new" |}.

(** The image store answers. *)
Definition io_ok : IO :=
  {| now := 2000; newObjectId := "64b0f1a2c3d4e5f6a7b8c9a2";
     upload_stream := fun _ => inr uploaded; destroy := fun _ => None |}.

(** The image store deletes, and rejects uploads. *)
Definition io_upload_fails : IO :=
  {| now := 2000; newObjectId := "64b0f1a2c3d4e5f6a7b8c9a2";
     upload_stream := fun _ => inl timeout; destroy := fun _ => None |}.

(** The image store rejects deletions. *)
Definition io_destroy_fails : IO :=
  {| now := 2000; newObjectId := "64b0f1a2c3d4e5f6a7b8c9a2";
     upload_stream := fun _ => inr uploaded; destroy := fun _ => Some timeout |}.

Definition photo : File := {| originalname := "new.jpg"; buffer := "JFIF" |}.

Definition no_query : Query.t := Query.mk None None None None None.

Definition no_body : Body.t := Body.mk None None None None None.

(** A request on the product [id] by [who]. *)
Definition request (id : string) (who : option User.t) (b : Body.t)
    (f : option File) : Req :=
  {| params := Params.mk id ""; query := no_query; body := b; file := f;
     user := who |}.

(** A listing request. *)
Definition listing (q : Query.t) : Req :=
  {| params := Params.mk "" ""; query := q; body := no_body; file := None;
     user := None |}.

Fixpoint replicate_char (n : nat) (c : ascii) : string :=
  match n with
  | O => EmptyString
  | S k => String c (replicate_char k c)
  end.

(** A title of 101 characters. *)
Definition long_title : string := replicate_char 101 "a".

Definition lamp_form : Body.t :=
  Body.mk (Some "Desk lamp") (Some "A lamp for the desk") (Some "Home & Garden")
    (Some "25") None.

End Fixture.

(** ** Notions used to state the further properties *)

(** The object that [createProduct] hands to [new Product] for the request
    body [b], the upload result [res] and the requester [uid]. *)
Definition draft_of (parseFloat : string -> Js.Number) (b : Body.t)
    (res : UploadResult) (uid : ObjectId) : Draft.t :=
  {| Draft.title := Body.title b;
     Draft.description := Body.description b;
     Draft.imageURL := Some (secure_url res);
     Draft.imagePublicId := Some (public_id res);
     Draft.shopId := Some uid;
     Draft.category := Body.category b;
     Draft.price := if Js.truthy (Body.price b) then parseFloat <$> Body.price b else None;
     Draft.inStock := Some (inStock_of (Body.inStock b)) |}.

(** A request body that the schema accepts: title and description present,
    not blank and within their lengths once trimmed, the category one of the
    enumerated ones, and the price, when one is given, a number that is not
    negative. *)
Definition accepted (parseFloat : string -> Js.Number) (b : Body.t) : Prop :=
  (∃ t, Body.title b = Some t ∧ Js.trim t ≠ ""
        ∧ (String.length (Js.trim t) <= 100)%nat)
  ∧ (∃ d, Body.description b = Some d ∧ Js.trim d ≠ ""
          ∧ (String.length (Js.trim d) <= 1000)%nat)
  ∧ (∃ c, Body.category b = Some c ∧ c ∈ Schema.categories)
  ∧ (∀ s, Body.price b = Some s -> s ≠ "" ->
          Js.isNaN (parseFloat s) = false ∧ Js.lt_zero (parseFloat s) = false).

(** A stored document within the constraints of the schema. *)
Definition valid_doc (p : Product.t) : Prop :=
  trimmed p
  ∧ Product.title p ≠ "" ∧ (String.length (Product.title p) <= 100)%nat
  ∧ Product.description p ≠ "" ∧ (String.length (Product.description p) <= 1000)%nat
  ∧ Product.category p ∈ Schema.categories
  ∧ Product.imageURL p ≠ "" ∧ Product.imagePublicId p ≠ ""
  ∧ (∀ n, Product.price p = Some n -> Js.isNaN n = false ∧ Js.lt_zero n = false).

(** The owner summary that [populate] selects from a user document. *)
Definition owner_summary (with_email : bool) (u : User.t) : Owner :=
  {| o_id := User._id u;
     o_username := User.username u;
     o_shopName := User.shopName u;
     o_email := if with_email then Some (User.email u) else None |}.

(** A listing query the store can serve: [page] and [limit] do not parse to
    a negative number, and a [shopId] criterion casts to an [ObjectId]. *)
Definition servable (castObjectId : string -> option ObjectId) (q : Query.t) : Prop :=
  (∀ n, Js.parseInt (Query.page q) = Some n -> 0 <= n)
  ∧ (∀ n, Js.parseInt (Query.limit q) = Some n -> 0 <= n)
  ∧ (∀ s, Query.shopId q = Some s -> s ≠ "" -> is_Some (castObjectId s)).

(** The stored products that a query selects, newest first. *)
Definition selection (castObjectId : string -> option ObjectId)
    (textSearch : string -> Product.t -> bool) (q : Query.t) (w : World)
  : list Product.t :=
  merge_sort newer_first
    (filter (fun p => in_filter castObjectId textSearch q p = true) (all_products w)).

(** The documents of a listing response, in the order of the page. *)
Definition page_docs (r : Response) : list Product.t :=
  match data r with
  | ProductPage views _ => doc <$> views
  | _ => []
  end.

(** ** The page script of [frontend/app.js] *)

(** The handlers of the page, as functions of what they read (the form
    fields, the two globals [currentUser] and [currentToken], the [token]
    item of [localStorage]) and of the server's answer to the one request a
    handler awaits.  What a handler does to the document is recorded, in
    order, as a list of [Effect]s: the calls of the display helpers
    ([showMessage], [setButtonLoading], [closeModal], [updateAuthUI]), the
    requests handed to [fetch], and the start of [loadProducts] where it is
    called without being awaited.  The query string of a request is kept as
    the list of pairs given to [URLSearchParams], a JSON body as the list of
    its members. *)

Module Client.

Definition API_BASE : string := "http://localhost:4000/api".

(** The user object of a response, with the two members the page reads. *)
Record Account := { _id : string; username : string }.

(** The owner of a product in a listing ([shopId], populated). *)
Record Shop := { s_id : string; s_username : string; s_shopName : option string }.

(** A product of a listing response; [shopId] is [null] when the owner's
    user document is gone. *)
Record ProductJson := {
  p_id : string;
  p_title : string;
  p_description : string;
  p_imageURL : string;
  p_category : string;
  p_price : option Js.Number;
  p_shopId : option Shop
}.

(** [response.data] and the parsed body of a response. *)
Record Data := {
  token : option string;
  user : option Account;
  products : option (list ProductJson)
}.

Record Json := { j_message : option string; j_data : option Data }.

(** What awaiting [fetch] and [response.json()] can give: the fetch
    rejects, or it resolves with [response.ok] and a body that parses or
    whose parsing rejects. *)
Inductive FetchResult :=
| Rejected (message : string)
| Resolved (ok : bool) (parsed : string + Json).

Record FileInfo := { f_name : string; f_type : string; f_size : Z }.

Inductive FormValue := Text (s : string) | Blob (f : FileInfo).

Inductive Payload :=
| NoBody
| JsonBody (members : list (string * string))
| FormData (entries : list (string * FormValue)).

Record Request := {
  url : string;
  search : list (string * string);
  method : option string;
  headers : list (string * string);
  payload : Payload
}.

(** [currentToken]: [null] at the start and after a logout, [undefined]
    after a response without a token, or a string. *)
Inductive Token := null | undefined | token_of (t : string).

Definition token_truthy (t : Token) : bool :=
  match t with
  | token_of s => negb (String.eqb s "")
  | _ => false
  end.

(** The token interpolated into a string. *)
Definition token_string (t : Token) : string :=
  match t with
  | null => "null"
  | undefined => "undefined"
  | token_of s => s
  end.

(** [response.data.token], a member that can be absent. *)
Definition read_token (v : option string) : Token :=
  match v with
  | Some s => token_of s
  | None => undefined
  end.

(** The two globals and the [token] item of [localStorage]. *)
Record State := {
  currentUser : option Account;
  currentToken : Token;
  localStorage : option string
}.

(** What [updateAuthUI] sets: the [display] of the four buttons and the
    greeting, shown only when logged in. *)
Record AuthUI := {
  loginBtn : string;
  registerBtn : string;
  addProductBtn : string;
  logoutBtn : string;
  userInfo : option string
}.

(** A product card, by the parts of its markup that vary: the price line
    and the delete button are present or not. *)
Record Card := {
  c_image : string;
  c_title : string;
  c_description : string;
  c_price : option Js.Number;
  c_category : string;
  c_shop : string;
  c_delete : option string
}.

Inductive Effect :=
| preventDefault
| showMessage (message type : string)
| setButtonLoading (buttonId : string) (isLoading : bool)
| closeModal (modalId : string)
| updateAuthUI (ui : AuthUI)
| call_loadProducts
| fetch (request : Request)
| loadingDisplay (display : string)
| gridHTML (html : string)
| appendCard (card : Card)
| deleteButton (productId : string) (loading : bool).

(** The requests among the effects. *)
Fixpoint requests (l : list Effect) : list Request :=
  match l with
  | [] => []
  | fetch r :: rest => r :: requests rest
  | _ :: rest => requests rest
  end.

(** The message of the [TypeError] for reading a member of [undefined] or
    [null] (the text is the engine's). *)
Definition cannot_read (what member : string) : string :=
  "Cannot read properties of " +:+ what +:+ " (reading '" +:+ member +:+ "')".

(** The markup shown for an empty listing: a [div] of class [loading] with
    the text. *)
Definition no_products_found : string :=
  "<div class=" +:+ String "034" "loading" +:+ String "034" ">No products found.</div>".

(** [config.headers] of [apiCall], for options without headers. *)
Definition api_headers (st : State) : list (string * string) :=
  ("Content-Type", "application/json") ::
  (if token_truthy (currentToken st)
   then [("Authorization", "Bearer " +:+ token_string (currentToken st))]
   else []).

(** [apiCall(endpoint, { method, body })]: the request it makes, and the
    parsed body it returns or the message of the error it throws. *)
Definition apiCall (st : State) (server : Request -> FetchResult)
    (endpoint : string) (params : list (string * string))
    (method : option string) (body : Payload) : Request * (string + Json) :=
  let request :=
    {| url := API_BASE +:+ endpoint; search := params; method := method;
       headers := api_headers st; payload := body |} in
  (request,
   match server request with
   | Rejected message => inl message
   | Resolved ok (inl message) => inl message
   | Resolved ok (inr data) =>
       if ok then inr data
       else inl (Js.or_else (j_message data) "Something went wrong")
   end).

(** [updateAuthUI()]. *)
Definition authUI (st : State) : AuthUI :=
  match currentUser st with
  | Some u =>
      {| loginBtn := "none"; registerBtn := "none";
         addProductBtn := "inline-block"; logoutBtn := "inline-block";
         userInfo := Some ("Welcome, " +:+ username u +:+ "!") |}
  | None =>
      {| loginBtn := "inline-block"; registerBtn := "inline-block";
         addProductBtn := "none"; logoutBtn := "none"; userInfo := None |}
  end.

(** The part of [handleLogin] and [handleRegister] after the request:
    [try { ...response.data... } catch { showMessage } finally { ... }]. *)
Definition signed_in (st : State) (button modal welcome : string)
    (answer : string + Json) : State * list Effect :=
  match answer with
  | inr response =>
      match j_data response with
      | Some d =>
          let st' := {| currentUser := user d; currentToken := read_token (token d);
                        localStorage := Some (token_string (read_token (token d))) |} in
          (st', [updateAuthUI (authUI st'); closeModal modal;
                 showMessage welcome "success"; call_loadProducts;
                 setButtonLoading button false])
      | None =>
          (st, [showMessage (cannot_read "undefined" "token") "error";
                setButtonLoading button false])
      end
  | inl message =>
      (st, [showMessage message "error"; setButtonLoading button false])
  end.

Definition handleLogin (loginEmail loginPassword : string)
    (server : Request -> FetchResult) (st : State) : State * list Effect :=
  let email := Js.trim loginEmail in
  let password := loginPassword in
  if negb (Js.truthy (Some email) && Js.truthy (Some password))
  then (st, [preventDefault; showMessage "Please fill in all required fields" "error"])
  else
    let '(request, answer) :=
      apiCall st server "/auth/login" [] (Some "POST")
        (JsonBody [("email", email); ("password", password)]) in
    let '(st', effects) :=
      signed_in st "loginSubmitBtn" "loginModal" "Login successful!" answer in
    (st', preventDefault :: setButtonLoading "loginSubmitBtn" true :: fetch request
          :: effects).

Definition handleRegister
    (registerUsername registerEmail registerPassword registerShopName : string)
    (server : Request -> FetchResult) (st : State) : State * list Effect :=
  let username := Js.trim registerUsername in
  let email := Js.trim registerEmail in
  let password := registerPassword in
  let shopName := Js.trim registerShopName in
  if negb (Js.truthy (Some username) && Js.truthy (Some email)
           && Js.truthy (Some password))
  then (st, [preventDefault; showMessage "Please fill in all required fields" "error"])
  else if (String.length password <? 6)%nat
  then (st, [preventDefault;
             showMessage "Password must be at least 6 characters long" "error"])
  else
    let '(request, answer) :=
      apiCall st server "/auth/register" [] (Some "POST")
        (JsonBody [("username", username); ("email", email);
                   ("password", password); ("shopName", shopName)]) in
    let '(st', effects) :=
      signed_in st "registerSubmitBtn" "registerModal" "Registration successful!"
        answer in
    (st', preventDefault :: setButtonLoading "registerSubmitBtn" true
          :: fetch request :: effects).

Definition logout (st : State) : State * list Effect :=
  let st' := {| currentUser := None; currentToken := null; localStorage := None |} in
  (st', [updateAuthUI (authUI st'); showMessage "Logged out successfully!" "success";
         call_loadProducts]).

Definition getCurrentUser (server : Request -> FetchResult) (st : State)
  : State * list Effect :=
  let '(request, answer) := apiCall st server "/auth/me" [] None NoBody in
  match answer with
  | inr {| j_data := Some d |} =>
      let st' := {| currentUser := user d; currentToken := currentToken st;
                    localStorage := localStorage st |} in
      (st', [fetch request; updateAuthUI (authUI st')])
  | _ =>
      let '(st', effects) := logout st in
      (st', fetch request :: effects)
  end.

(** [handleAddProduct]; the request goes to [fetch] directly, with the
    token interpolated into the header whether there is one or not. *)
Definition handleAddProduct
    (productTitle productDescription productCategory productPrice : string)
    (productImage : option FileInfo)
    (server : Request -> FetchResult) (st : State) : State * list Effect :=
  let title := Js.trim productTitle in
  let description := Js.trim productDescription in
  let category := productCategory in
  let price := productPrice in
  match productImage with
  | Some imageFile =>
      if negb (Js.truthy (Some title) && Js.truthy (Some description)
               && Js.truthy (Some category))
      then (st, [preventDefault;
                 showMessage "Please fill in all required fields and select an image"
                   "error"])
      else if negb (String.prefix "image/" (f_type imageFile))
      then (st, [preventDefault; showMessage "Please select a valid image file" "error"])
      else if 5 * 1024 * 1024 <? f_size imageFile
      then (st, [preventDefault;
                 showMessage "Image file size must be less than 5MB" "error"])
      else
        let request :=
          {| url := API_BASE +:+ "/products"; search := [];
             method := Some "POST";
             headers :=
               [("Authorization", "Bearer " +:+ token_string (currentToken st))];
             payload :=
               FormData [("title", Text title); ("description", Text description);
                         ("category", Text category); ("price", Text price);
                         ("image", Blob imageFile)] |} in
        let answer :=
          match server request with
          | Rejected message => inl message
          | Resolved ok (inl message) => inl message
          | Resolved ok (inr data) =>
              if ok then inr data
              else inl (Js.or_else (j_message data) "Failed to add product")
          end in
        (st, preventDefault :: setButtonLoading "productSubmitBtn" true
             :: fetch request
             :: match answer with
                | inr _ => [closeModal "productModal";
                            showMessage "Product added successfully!" "success";
                            call_loadProducts]
                | inl message => [showMessage message "error"]
                end
             ++ [setButtonLoading "productSubmitBtn" false])
  | None =>
      (st, [preventDefault;
            showMessage "Please fill in all required fields and select an image"
              "error"])
  end.

(** The truthiness of a number that may be absent: 0 and NaN are falsy. *)
Definition truthy_number (n : option Js.Number) : bool :=
  match n with
  | Some (Js.Finite q) => negb (Qnum q =? 0)
  | Some Js.NaN => false
  | Some _ => true
  | None => false
  end.

(** [createProductCard(product)]: the card, or the message of the
    [TypeError] thrown on a product without owner. *)
Definition createProductCard (st : State) (product : ProductJson) : string + Card :=
  match p_shopId product with
  | Some shop =>
      let canDelete :=
        match currentUser st with
        | Some u => String.eqb (s_id shop) (_id u)
        | None => false
        end in
      inr {| c_image := p_imageURL product;
             c_title := p_title product;
             c_description := p_description product;
             c_price := if truthy_number (p_price product) then p_price product else None;
             c_category := p_category product;
             c_shop := Js.or_else (s_shopName shop) (s_username shop);
             c_delete := if canDelete then Some (p_id product) else None |}
  | None =>
      inl (cannot_read "null"
             (match currentUser st with Some _ => "_id" | None => "shopName" end))
  end.

(** [products.forEach(product => productGrid.appendChild(createProductCard(product)))]:
    the cards appended, and the error that stopped the loop if one did. *)
Fixpoint render (st : State) (l : list ProductJson) : list Effect * option string :=
  match l with
  | [] => ([], None)
  | product :: rest =>
      match createProductCard st product with
      | inr card => let '(effects, error) := render st rest in (appendCard card :: effects, error)
      | inl message => ([], Some message)
      end
  end.

Definition loadProducts (categoryFilter searchInput : string)
    (server : Request -> FetchResult) (st : State) : list Effect :=
  let category := categoryFilter in
  let search := searchInput in
  let params :=
    (if Js.truthy (Some category) then [("category", category)] else [])
    ++ (if Js.truthy (Some search) then [("search", search)] else []) in
  let '(request, answer) := apiCall st server "/products?" params None NoBody in
  loadingDisplay "block" :: gridHTML "" :: fetch request ::
  match answer with
  | inr response =>
      match j_data response with
      | Some d =>
          match products d with
          | Some [] =>
              [loadingDisplay "none";
               gridHTML no_products_found]
          | Some l =>
              let '(cards, error) := render st l in
              loadingDisplay "none" :: cards
              ++ match error with
                 | Some message => [loadingDisplay "none"; showMessage message "error"]
                 | None => []
                 end
          | None =>
              [loadingDisplay "none"; loadingDisplay "none";
               showMessage (cannot_read "undefined" "length") "error"]
          end
      | None =>
          [loadingDisplay "none";
           showMessage (cannot_read "undefined" "products") "error"]
      end
  | inl message => [loadingDisplay "none"; showMessage message "error"]
  end.

(** The page's [deleteProduct(productId, buttonElement)]; [confirmed] is the
    answer to the confirmation dialog. *)
Definition deleteProduct (productId : string) (confirmed : bool)
    (server : Request -> FetchResult) (st : State) : list Effect :=
  if negb confirmed then []
  else
    let '(request, answer) :=
      apiCall st server ("/products/" +:+ productId) [] (Some "DELETE") NoBody in
    deleteButton productId true :: fetch request ::
    match answer with
    | inr _ => [showMessage "Product deleted successfully!" "success"; call_loadProducts]
    | inl message => [showMessage message "error"; deleteButton productId false]
    end.

End Client.

(** ** A larger catalog, and a server for the page *)

Module Sample.

Definition chair_id : ObjectId := "64b0f1a2c3d4e5f6a7b8c9a3".

Definition book_id : ObjectId := "64b0f1a2c3d4e5f6a7b8c9a4".

Definition chair : Product.t :=
  {| Product._id := chair_id;
     Product.title := "Garden chair";
     Product.description := "A folding chair";
     Product.imageURL := "https://res.cloudinary.com/demo/image/upload/product-gallery/chair.jpg";
     Product.imagePublicId := "product-gallery/chair";
     Product.shopId := User._id Fixture.bob;
     Product.category := "Home & Garden";
     Product.price := None;
     Product.inStock := true;
     Product.createdAt := 3000;
     Product.updatedAt := 3000 |}.

Definition book : Product.t :=
  {| Product._id := book_id;
     Product.title := "Cookbook";
     Product.description := "Recipes";
     Product.imageURL := "https://res.cloudinary.com/demo/image/upload/product-gallery/book.jpg";
     Product.imagePublicId := "product-gallery/book";
     Product.shopId := User._id Fixture.alice;
     Product.category := "Books";
     Product.price := Some (Js.Finite (12 # 1));
     Product.inStock := false;
     Product.createdAt := 2000;
     Product.updatedAt := 2500 |}.

(** Three products: the chair is the newest, the lamp the oldest. *)
Definition shop : World :=
  {| products := {[ Fixture.lamp_id := Fixture.lamp; chair_id := chair; book_id := book ]};
     users := users Fixture.world;
     assets := {[ "product-gallery/lamp"; "product-gallery/chair"; "product-gallery/book" ]} |}.

Definition table_id : ObjectId := "64b0f1a2c3d4e5f6a7b8c9a5".

Definition table : Product.t :=
  {| Product._id := table_id;
     Product.title := "Garden table";
     Product.description := "A table for four";
     Product.imageURL := "https://res.cloudinary.com/demo/image/upload/product-gallery/table.jpg";
     Product.imagePublicId := "product-gallery/table";
     Product.shopId := User._id Fixture.alice;
     Product.category := "Home & Garden";
     Product.price := Some (Js.Finite (80 # 1));
     Product.inStock := true;
     Product.createdAt := 4000;
     Product.updatedAt := 4000 |}.

(** The three products and the table, the newest of all: Alice has two
    products for the garden, Bob one. *)
Definition garden : World :=
  {| products := <[table_id := table]> (products shop);
     users := users shop;
     assets := {[ "product-gallery/table" ]} ∪ assets shop |}.

(** The listing request for [page] and [limit], with an optional category. *)
Definition page (n size : string) (category : option string) : Req :=
  Fixture.listing (Query.mk (Some n) (Some size) category None None).

Definition absent_id : string := "64b0f1a2c3d4e5f6a7b8c9ff".

Definition alice_account : Client.Account :=
  {| Client._id := "64b0f1a2c3d4e5f6a7b8c901"; Client.username := "alice" |}.

Definition session : Client.Data :=
  {| Client.token := Some "jwt-of-alice"; Client.user := Some alice_account;
     Client.products := None |}.

(** A server that signs everybody in as Alice. *)
Definition auth_server (r : Client.Request) : Client.FetchResult :=
  Client.Resolved true
    (inr {| Client.j_message := Some "Login successful";
            Client.j_data := Some session |}).

(** A server that cannot be reached. *)
Definition down_server (r : Client.Request) : Client.FetchResult :=
  Client.Rejected "Failed to fetch".

Definition logged_out : Client.State :=
  {| Client.currentUser := None; Client.currentToken := Client.null;
     Client.localStorage := None |}.

Definition logged_in : Client.State :=
  {| Client.currentUser := Some alice_account;
     Client.currentToken := Client.token_of "jwt-of-alice";
     Client.localStorage := Some "jwt-of-alice" |}.

Definition png : Client.FileInfo :=
  {| Client.f_name := "lamp.png"; Client.f_type := "image/png";
     Client.f_size := 204800 |}.

Definition lamp_json : Client.ProductJson :=
  {| Client.p_id := "64b0f1a2c3d4e5f6a7b8c9a1"; Client.p_title := "Desk lamp";
     Client.p_description := "A lamp for the desk";
     Client.p_imageURL := "https://res.cloudinary.com/demo/image/upload/product-gallery/lamp.jpg";
     Client.p_category := "Home & Garden";
     Client.p_price := Some (Js.Finite (25 # 1));
     Client.p_shopId :=
       Some {| Client.s_id := "64b0f1a2c3d4e5f6a7b8c901"; Client.s_username := "alice";
               Client.s_shopName := Some "Alice's Shop" |} |}.

Definition chair_json : Client.ProductJson :=
  {| Client.p_id := "64b0f1a2c3d4e5f6a7b8c9a3"; Client.p_title := "Garden chair";
     Client.p_description := "A folding chair";
     Client.p_imageURL := "https://res.cloudinary.com/demo/image/upload/product-gallery/chair.jpg";
     Client.p_category := "Home & Garden";
     Client.p_price := None;
     Client.p_shopId :=
       Some {| Client.s_id := "64b0f1a2c3d4e5f6a7b8c902"; Client.s_username := "bob";
               Client.s_shopName := None |} |}.

(** A product whose owner is gone. *)
Definition orphan_json : Client.ProductJson :=
  {| Client.p_id := "64b0f1a2c3d4e5f6a7b8c9a5"; Client.p_title := "Kettle";
     Client.p_description := "A kettle";
     Client.p_imageURL := "https://res.cloudinary.com/demo/image/upload/product-gallery/kettle.jpg";
     Client.p_category := "Other";
     Client.p_price := None;
     Client.p_shopId := None |}.

End Sample.

(** ** Notions used to state the properties of the page *)

(** The [display] of the loading indicator after the effects, if they set
    it. *)
Fixpoint final_loading (l : list Client.Effect) (current : option string)
  : option string :=
  match l with
  | [] => current
  | Client.loadingDisplay d :: rest => final_loading rest (Some d)
  | _ :: rest => final_loading rest current
  end.

(** The product has an owner in the listing. *)
Definition has_owner (p : Client.ProductJson) : Prop := is_Some (Client.p_shopId p).

(** The request of the login form. *)
Definition login_request (st : Client.State) (email password : string) : Client.Request :=
  {| Client.url := "http://localhost:4000/api/auth/login"; Client.search := [];
     Client.method := Some "POST"; Client.headers := Client.api_headers st;
     Client.payload := Client.JsonBody [("email", email); ("password", password)] |}.

(** The request of the registration form. *)
Definition register_request (st : Client.State)
    (username email password shopName : string) : Client.Request :=
  {| Client.url := "http://localhost:4000/api/auth/register"; Client.search := [];
     Client.method := Some "POST"; Client.headers := Client.api_headers st;
     Client.payload :=
       Client.JsonBody [("username", username); ("email", email);
                        ("password", password); ("shopName", shopName)] |}.

(** The request of [loadProducts]: the criteria that are not empty, the
    category first. *)
Definition listing_request (st : Client.State) (category search : string)
  : Client.Request :=
  {| Client.url := "http://localhost:4000/api/products?";
     Client.search :=
       (if String.eqb category "" then [] else [("category", category)])
       ++ (if String.eqb search "" then [] else [("search", search)]);
     Client.method := None; Client.headers := Client.api_headers st;
     Client.payload := Client.NoBody |}.

(** The request of the product form. *)
Definition product_request (st : Client.State)
    (title description category price : string) (image : Client.FileInfo)
  : Client.Request :=
  {| Client.url := "http://localhost:4000/api/products"; Client.search := [];
     Client.method := Some "POST";
     Client.headers :=
       [("Authorization", "Bearer " +:+ Client.token_string (Client.currentToken st))];
     Client.payload :=
       Client.FormData
         [("title", Client.Text title); ("description", Client.Text description);
          ("category", Client.Text category); ("price", Client.Text price);
          ("image", Client.Blob image)] |}.

(** ** Properties *)

(** Running a handler symbolically: unfold the computation down to the
    store operations. *)
Ltac unfold_M :=
  unfold try_catch, findById, findByIdAndUpdate, findByIdAndDelete, save,
    cast_id, req_user_id, uploadToCloudinary, cloudinary_destroy, populate,
    mbind, M_bind, bind, mret, M_ret, ret, throw, gets, modify in *.

(** *** [trim] is idempotent *)

Lemma ltrim_head (s : string) (c : ascii) (r : string) :
  Js.ltrim s = String c r -> Js.is_ws c = false.
Proof.
  induction s as [|a s IH]; cbn; [done|].
  destruct (Js.is_ws a) eqn:Ha; [exact IH|]. intros [= <- <-]. exact Ha.
Qed.

Lemma rtrim_head (c : ascii) (r : string) :
  Js.is_ws c = false -> ∃ r', Js.rtrim (String c r) = String c r'.
Proof.
  intros Hc. cbn. destruct (Js.rtrim r); rewrite ?Hc; eauto.
Qed.

Lemma rtrim_idempotent (s : string) : Js.rtrim (Js.rtrim s) = Js.rtrim s.
Proof.
  induction s as [|c s IH]; [done|]. cbn.
  destruct (Js.rtrim s) as [|c' r'] eqn:Hr.
  - destruct (Js.is_ws c) eqn:Hc; [done|]. cbn. by rewrite Hc.
  - cbn [Js.rtrim] in *. by rewrite IH.
Qed.

Lemma trim_idempotent (s : string) : Js.trim (Js.trim s) = Js.trim s.
Proof.
  unfold Js.trim. destruct (Js.ltrim s) as [|c r] eqn:Hl; [done|].
  pose proof (ltrim_head s c r Hl) as Hc.
  destruct (rtrim_head c r Hc) as [r' Hr]. rewrite Hr.
  cbn [Js.ltrim]. rewrite Hc, <- Hr. apply rtrim_idempotent.
Qed.

Lemma trim_default (o : option string) :
  Js.trim (default "" (Js.trim <$> o)) = default "" (Js.trim <$> o).
Proof. destruct o; [apply trim_idempotent|reflexivity]. Qed.

Lemma bind_ok {A B} (m : M A) (k : A -> M B) (w w' : World) (a : A) :
  m w = (inr a, w') -> (m ≫= k) w = k a w'.
Proof. intros H. unfold mbind, M_bind, bind. by rewrite H. Qed.

Lemma bind_throw {A B} (m : M A) (k : A -> M B) (w w' : World) (e : JsError) :
  m w = (inl e, w') -> (m ≫= k) w = (inl e, w').
Proof. intros H. unfold mbind, M_bind, bind. by rewrite H. Qed.

Example parseInt_examples :
  Js.parseInt (Some "2") = Some 2 ∧ Js.parseInt (Some " 12px") = Some 12
  ∧ Js.parseInt (Some "-5") = Some (-5) ∧ Js.parseInt (Some "0x1f") = Some 31
  ∧ Js.parseInt (Some "abc") = None ∧ Js.parseInt (Some "") = None
  ∧ Js.parseInt None = None ∧ Js.parseInt (Some "0") = Some 0.
Proof. repeat split; reflexivity. Qed.

Example num_or_examples :
  Js.num_or (Js.parseInt None) 1 = 1 ∧ Js.num_or (Js.parseInt (Some "0")) 10 = 10
  ∧ Js.num_or (Js.parseInt (Some "5")) 10 = 5
  ∧ Js.num_or (Js.parseInt (Some "-5")) 10 = -5.
Proof. repeat split; reflexivity. Qed.

Example trim_examples :
  Js.trim "  X y  " = "X y" ∧ Js.trim "   " = "" ∧ Js.trim "X" = "X".
Proof. repeat split; reflexivity. Qed.

Example ceil_div_examples :
  Js.ceil_div 11 5 = 3 ∧ Js.ceil_div 10 5 = 2 ∧ Js.ceil_div 0 5 = 0.
Proof. repeat split; reflexivity. Qed.

Section Properties.

Variable castObjectId : string -> option ObjectId.
Variable textSearch : string -> Product.t -> bool.
Variable parseFloat : string -> Js.Number.

Lemma toString_neq (a b : ObjectId) :
  a ≠ b -> negb (String.eqb (toString a) (toString b)) = true.
Proof.
  intros Hne. unfold toString. destruct (String.eqb_spec a b); [done|reflexivity].
Qed.

Lemma toString_eq (a : ObjectId) :
  negb (String.eqb (toString a) (toString a)) = false.
Proof. unfold toString. by rewrite String.eqb_refl. Qed.

(** C4. When the requester is not the owner of an existing product, both
    [updateProduct] and [deleteProduct] answer 403 and leave the product
    store, the user store and the image store as they were. *)
Theorem non_owner_is_rejected (req : Req) (io : IO) (w : World)
    (oid : ObjectId) (p : Product.t) (u : User.t) :
  castObjectId (Params.id (params req)) = Some oid ->
  products w !! oid = Some p ->
  user req = Some u ->
  User._id u ≠ Product.shopId p ->
  updateProduct castObjectId parseFloat req io w
    = (json 403 false "Access denied. You can only update your own products.", w)
  ∧ deleteProduct castObjectId req io w
    = (json 403 false "Access denied. You can only delete your own products.", w).
Proof.
  intros Hcast Hp Hu Hne.
  assert (Hcmp : negb (String.eqb (toString (Product.shopId p)) (toString (User._id u))) = true)
    by (apply toString_neq; congruence).
  split.
  - unfold updateProduct. unfold_M. rewrite Hcast, Hp, Hu. cbn. by rewrite Hcmp.
  - unfold deleteProduct. unfold_M. rewrite Hcast, Hp, Hu. cbn. by rewrite Hcmp.
Qed.

(** *** How one request changes the product store *)

Ltac run_handler :=
  unfold_M; cbn;
  repeat (case_match; simplify_eq/=; try by eauto using product_step).

Lemma createProduct_step req io w :
  product_step (products w) (products (createProduct parseFloat req io w).2).
Proof. unfold createProduct. destruct (body req). run_handler. Qed.

Lemma updateProduct_step req io w :
  product_step (products w) (products (updateProduct castObjectId parseFloat req io w).2).
Proof. unfold updateProduct. destruct (body req). run_handler. Qed.

Lemma deleteProduct_step req io w :
  product_step (products w) (products (deleteProduct castObjectId req io w).2).
Proof. unfold deleteProduct. run_handler. Qed.

Lemma getProduct_same req io w :
  (getProduct castObjectId req io w).2 = w.
Proof. unfold getProduct. run_handler. Qed.

(** *** Listing *)

Lemma populate_all_spec l w :
  ∃ vs, populate_all l w = (inr vs, w) ∧ doc <$> vs = l.
Proof.
  induction l as [|p l [vs [IH1 IH2]]]; [by exists []|].
  eexists. cbn [populate_all]. unfold_M. rewrite IH1. split; [reflexivity|].
  cbn. by rewrite IH2.
Qed.

Lemma ceil_div_is_ceiling a b : 0 < b -> is_ceiling (Js.ceil_div a b) a b.
Proof.
  intros Hb. unfold is_ceiling, Js.ceil_div.
  pose proof (Z.mul_div_le (- a) b Hb).
  pose proof (Z.mul_succ_div_gt (- a) b Hb).
  nia.
Qed.

Lemma num_or_positive (o : option Z) (d : Z) :
  (∀ n, o = Some n -> 0 <= n) -> 0 < d -> 0 < Js.num_or o d.
Proof.
  intros Ho Hd. destruct o as [n|]; [|done].
  specialize (Ho n eq_refl). destruct n; cbn; lia.
Qed.

(** The filter object of [getProducts] selects what [in_filter] selects. *)
Lemma matches_in_filter (q : Query.t) (p : Product.t) (shop : option ObjectId) :
  (shop = match Query.shopId q with
          | Some s => if String.eqb s "" then None else castObjectId s
          | None => None
          end) ->
  (∀ s, Query.shopId q = Some s -> s ≠ "" -> is_Some (castObjectId s)) ->
  matches textSearch
    (if Js.truthy (Query.category q) then Query.category q else None)
    shop
    (if Js.truthy (Query.search q) then Query.search q else None) p
  = in_filter castObjectId textSearch q p.
Proof.
  intros -> Hcast. unfold matches, in_filter, Js.truthy.
  destruct (Query.category q) as [c|], (Query.shopId q) as [s|],
    (Query.search q) as [t|]; cbn;
    repeat match goal with
    | |- context [String.eqb ?x ""] => destruct (String.eqb_spec x ""); cbn
    end; try reflexivity.
  all: destruct (Hcast s eq_refl ltac:(done)) as [o Ho]; rewrite Ho;
    f_equal; try (f_equal; []);
    destruct (String.eqb_spec (Product.shopId p) o);
    [subst; by rewrite bool_decide_eq_true_2
    |rewrite bool_decide_eq_false_2; [done|congruence]].
Qed.

Lemma select_spec (q : Query.t) (w : World) :
  (∀ s, Query.shopId q = Some s -> s ≠ "" -> is_Some (castObjectId s)) ->
  select castObjectId textSearch
    {| f_category := if Js.truthy (Query.category q) then Query.category q else None;
       f_shopId := if Js.truthy (Query.shopId q) then Query.shopId q else None;
       f_text := if Js.truthy (Query.search q) then Query.search q else None |} w
  = (inr (filter (fun p => in_filter castObjectId textSearch q p = true)
            (all_products w)), w).
Proof.
  intros Hcast. unfold select, all_products. cbn [f_shopId f_category f_text].
  set (shop := match Query.shopId q with
               | Some s => if String.eqb s "" then None else castObjectId s
               | None => None
               end).
  assert (Hsel : (match (if Js.truthy (Query.shopId q) then Query.shopId q else None) with
                  | Some s => oid ← cast_id castObjectId s; mret (Some oid)
                  | None => mret None
                  end : M (option ObjectId)) w = (inr shop, w)).
  { subst shop. unfold Js.truthy. destruct (Query.shopId q) as [s|]; [|done].
    destruct (String.eqb_spec s ""); cbn; [done|].
    destruct (Hcast s eq_refl ltac:(done)) as [o Ho].
    unfold_M. by rewrite Ho. }
  rewrite (bind_ok _ _ _ _ _ Hsel). unfold gets.
  do 2 f_equal. apply list_filter_iff. intros p.
  by rewrite (matches_in_filter q p shop eq_refl Hcast).
Qed.

(** C5, as the code has it. When [page] and [limit] do not parse to a
    negative number and a [shopId] criterion casts to an [ObjectId],
    [getProducts] answers 200 with a page of at most [limit] products,
    every one a stored product that satisfies the filter, where [page] and
    [limit] are the parsed query values or, when these are absent,
    non-numeric or 0, the defaults 1 and 10; [total] counts the stored
    products that satisfy the filter and [pages] is the ceiling of
    [total / limit]; the stores are unchanged. *)
Theorem listing_page (req : Req) (io : IO) (w : World) :
  let q := query req in
  (∀ n, Js.parseInt (Query.page q) = Some n -> 0 <= n) ->
  (∀ n, Js.parseInt (Query.limit q) = Some n -> 0 <= n) ->
  (∀ s, Query.shopId q = Some s -> s ≠ "" -> is_Some (castObjectId s)) ->
  ∃ views pg,
    getProducts castObjectId textSearch req io w
      = (json_data 200 true None (ProductPage views pg), w)
    ∧ pg_page pg = Js.num_or (Js.parseInt (Query.page q)) 1
    ∧ pg_limit pg = Js.num_or (Js.parseInt (Query.limit q)) 10
    ∧ 0 < pg_limit pg
    ∧ Z.of_nat (length views) <= pg_limit pg
    ∧ Forall (fun v => doc v ∈ all_products w
                       ∧ in_filter castObjectId textSearch q (doc v) = true) views
    ∧ (∀ c v, Query.category q = Some c -> c ≠ "" -> v ∈ views ->
              Product.category (doc v) = c)
    ∧ pg_total pg
      = Z.of_nat (length (filter (fun p => in_filter castObjectId textSearch q p = true)
                            (all_products w)))
    ∧ is_ceiling (pg_pages pg) (pg_total pg) (pg_limit pg)
    ∧ (Query.page q = None -> pg_page pg = 1)
    ∧ (Query.limit q = None -> pg_limit pg = 10).
Proof.
  intros q Hpage Hlimit Hcast.
  pose proof (num_or_positive _ 1 Hpage eq_refl) as Hp.
  pose proof (num_or_positive _ 10 Hlimit eq_refl) as Hl.
  set (page := Js.num_or (Js.parseInt (Query.page q)) 1) in *.
  set (lim := Js.num_or (Js.parseInt (Query.limit q)) 10) in *.
  set (sel := filter (fun p => in_filter castObjectId textSearch q p = true)
                (all_products w)).
  set (shown := take (Z.to_nat (Z.abs lim))
                  (drop (Z.to_nat ((page - 1) * lim)) (merge_sort newer_first sel))).
  destruct (populate_all_spec shown w) as [views [Hpop Hdocs]].
  exists views,
    {| pg_page := page; pg_pages := Js.ceil_div (Z.of_nat (length sel)) lim;
       pg_total := Z.of_nat (length sel); pg_limit := lim |}.
  assert (Hlen : length views = length shown) by (by rewrite <- Hdocs, length_fmap).
  assert (Hin : ∀ v, v ∈ views -> doc v ∈ sel).
  { intros v Hv. assert (Hd : doc v ∈ shown) by (rewrite <- Hdocs; by apply list_elem_of_fmap_2).
    subst shown. apply subseteq_take, subseteq_drop in Hd.
    by rewrite merge_sort_Permutation in Hd. }
  split_and!; cbn [pg_page pg_limit pg_total pg_pages]; try done.
  - unfold getProducts, try_catch, find, countDocuments, skip, limit.
    fold q. fold page. fold lim.
    assert (Hskip : ((page - 1) * lim <? 0) = false) by (apply Z.ltb_ge; nia).
    assert (Hz : (lim =? 0) = false) by (apply Z.eqb_neq; lia).
    rewrite Hskip, Hz.
    assert (Hfind :
      (l ← select castObjectId textSearch
             {| f_category := if Js.truthy (Query.category q) then Query.category q else None;
                f_shopId := if Js.truthy (Query.shopId q) then Query.shopId q else None;
                f_text := if Js.truthy (Query.search q) then Query.search q else None |};
       l ← mret (drop (Z.to_nat ((page - 1) * lim)) (merge_sort newer_first l));
       populate_all (take (Z.to_nat (Z.abs lim)) l)) w = (inr views, w)).
    { rewrite (bind_ok _ _ _ _ _ (select_spec q w Hcast)). fold sel.
      erewrite bind_ok by reflexivity. exact Hpop. }
    rewrite (bind_ok _ _ _ _ _ Hfind).
    erewrite bind_ok; [reflexivity|].
    by rewrite (bind_ok _ _ _ _ _ (select_spec q w Hcast)).
  - rewrite Hlen. subst shown. rewrite length_take. lia.
  - apply Forall_forall. intros v Hv. specialize (Hin v Hv).
    subst sel. apply list_elem_of_filter in Hin. destruct Hin as [Hf Hs]. done.
  - intros c v Hc Hne Hv. specialize (Hin v Hv).
    subst sel. apply list_elem_of_filter in Hin. destruct Hin as [Hf _].
    unfold in_filter in Hf. rewrite Hc in Hf.
    apply andb_prop in Hf as [Hf _]. apply andb_prop in Hf as [Hf _].
    destruct (String.eqb_spec c ""); [done|]. cbn in Hf.
    by apply String.eqb_eq in Hf.
  - by apply ceil_div_is_ceiling.
  - intros Hnone. subst page. by rewrite Hnone.
  - intros Hnone. subst lim. by rewrite Hnone.
Qed.

(** *** Deleting *)

(** What [deleteProduct] does for the owner of an existing product. *)
Lemma deleteProduct_owner (req : Req) (io : IO) (w : World)
    (oid : ObjectId) (p : Product.t) (u : User.t) :
  castObjectId (Params.id (params req)) = Some oid ->
  products w !! oid = Some p ->
  user req = Some u ->
  User._id u = Product.shopId p ->
  deleteProduct castObjectId req io w =
    if Js.truthy (Some (Product.imagePublicId p)) then
      match destroy io (Product.imagePublicId p) with
      | Some _ => (json 500 false "Server error deleting product", w)
      | None =>
          (json 200 true "Product deleted successfully",
           set_products (set_assets w (assets w ∖ {[Product.imagePublicId p]}))
             (delete oid (products w)))
      end
    else (json 200 true "Product deleted successfully",
          set_products w (delete oid (products w))).
Proof.
  intros Hcast Hp Hu Hown.
  unfold deleteProduct. unfold_M. rewrite Hcast, Hp, Hu. cbn.
  rewrite Hown, toString_eq.
  destruct (negb (String.eqb (Product.imagePublicId p) "")); cbn.
  - by destruct (destroy io (Product.imagePublicId p)).
  - reflexivity.
Qed.

(** C2, as the code has it. For the owner of an existing product whose
    image has a deletion handle: when the image store rejects the deletion
    of the image, [deleteProduct] answers 500 and changes nothing, the
    record is still stored; when the image store resolves, the answer is
    200, the record is gone and so is the image. *)
Theorem delete_follows_image_deletion (req : Req) (io : IO) (w : World)
    (oid : ObjectId) (p : Product.t) (u : User.t) :
  castObjectId (Params.id (params req)) = Some oid ->
  products w !! oid = Some p ->
  user req = Some u ->
  User._id u = Product.shopId p ->
  Product.imagePublicId p ≠ "" ->
  (is_Some (destroy io (Product.imagePublicId p)) ->
     deleteProduct castObjectId req io w
       = (json 500 false "Server error deleting product", w))
  ∧ (destroy io (Product.imagePublicId p) = None ->
     ∃ w', deleteProduct castObjectId req io w
             = (json 200 true "Product deleted successfully", w')
           ∧ products w' !! oid = None
           ∧ Product.imagePublicId p ∉ assets w').
Proof.
  intros Hcast Hp Hu Hown Hpid.
  rewrite (deleteProduct_owner req io w oid p u Hcast Hp Hu Hown).
  assert (Ht : Js.truthy (Some (Product.imagePublicId p)) = true).
  { cbn. by destruct (String.eqb_spec (Product.imagePublicId p) ""). }
  rewrite Ht. split.
  - intros [e He]. by rewrite He.
  - intros Hd. rewrite Hd. eexists. split; [reflexivity|]. cbn. split.
    + apply lookup_delete_eq.
    + intros [_ Hn]%elem_of_difference. apply Hn. by apply elem_of_singleton.
Qed.

(** C8. For the owner of an existing product: [deleteProduct] answers 200
    whenever the image store does not reject the deletion of the image,
    and after every [deleteProduct] that answered 200 a [getProduct] of
    the same id answers 404 "Product not found". *)
Theorem deleted_product_is_not_found (req : Req) (io : IO) (w : World)
    (oid : ObjectId) (p : Product.t) (u : User.t) :
  castObjectId (Params.id (params req)) = Some oid ->
  products w !! oid = Some p ->
  user req = Some u ->
  User._id u = Product.shopId p ->
  (destroy io (Product.imagePublicId p) = None ->
     status (deleteProduct castObjectId req io w).1 = 200)
  ∧ (status (deleteProduct castObjectId req io w).1 = 200 ->
     ∀ (req' : Req) (io' : IO),
       Params.id (params req') = Params.id (params req) ->
       getProduct castObjectId req' io' (deleteProduct castObjectId req io w).2
         = (json 404 false "Product not found",
            (deleteProduct castObjectId req io w).2)).
Proof.
  intros Hcast Hp Hu Hown.
  rewrite (deleteProduct_owner req io w oid p u Hcast Hp Hu Hown).
  split.
  - intros Hd. rewrite Hd. by destruct (Js.truthy _).
  - intros Hok req' io' Hid. unfold getProduct. unfold_M. rewrite Hid, Hcast.
    destruct (Js.truthy _); [destruct (destroy io _); [done|]|];
      cbn; by rewrite lookup_delete_eq.
Qed.

(** *** Creating *)

Lemma title_errors_nil (v : option string) :
  Schema.title_errors v = [] ->
  Js.truthy v = true ∧ ∀ t, v = Some t -> (String.length t <= 100)%nat.
Proof.
  unfold Schema.title_errors, Schema.path_errors, Schema.required, Schema.maxlength.
  cbn -[Nat.ltb]. destruct (Js.truthy v); cbn -[Nat.ltb]; [|done].
  destruct v as [t|]; [|done].
  destruct (Nat.ltb_spec 100 (String.length t)); cbn; [done|].
  intros _. split; [done|]. intros ? [= <-]. lia.
Qed.

Lemma description_errors_nil (v : option string) :
  Schema.description_errors v = [] ->
  Js.truthy v = true ∧ ∀ t, v = Some t -> (String.length t <= 1000)%nat.
Proof.
  unfold Schema.description_errors, Schema.path_errors, Schema.required,
    Schema.maxlength.
  cbn -[Nat.ltb]. destruct (Js.truthy v); cbn -[Nat.ltb]; [|done].
  destruct v as [t|]; [|done].
  destruct (Nat.ltb_spec 1000 (String.length t)); cbn; [done|].
  intros _. split; [done|]. intros ? [= <-]. lia.
Qed.

Lemma category_errors_nil (v : option string) :
  Schema.category_errors v = [] -> ∃ c, v = Some c ∧ c ∈ Schema.categories.
Proof.
  unfold Schema.category_errors, Schema.path_errors, Schema.required, Schema.enum.
  cbn. destruct v as [c|]; cbn; [|done].
  destruct (negb (String.eqb c "")); cbn; [|done].
  case_bool_decide; cbn; [|done]. eauto.
Qed.

Lemma price_errors_nil (v : option Js.Number) :
  Schema.price_errors v = [] -> ∀ n, v = Some n -> Js.lt_zero n = false.
Proof.
  unfold Schema.price_errors, Schema.path_errors, Schema.number_min0. cbn.
  intros H n ->. destruct (Js.isNaN n); [done|]. by destruct (Js.lt_zero n).
Qed.

(** A request with an image whose body violates a field constraint is
    answered 500 by [createProduct], whatever else happens. *)
Lemma create_violation_is_500 (req : Req) (io : IO) (w : World) (f : File) :
  file req = Some f ->
  violates_constraints parseFloat (body req) ->
  (createProduct parseFloat req io w).1
    = json 500 false "Server error creating product".
Proof.
  intros Hf Hv. unfold createProduct. rewrite Hf.
  destruct (body req) as [t d c pr st]. unfold violates_constraints in Hv.
  cbn in Hv. unfold_M. cbn.
  destruct (upload_stream io f) as [e|res]; cbn; [done|].
  destruct (user req) as [u|]; cbn; [|done].
  destruct (Schema.validate _) eqn:Hval; cbn; [exfalso|done].
  unfold Schema.validate in Hval.
  cbn [Schema.cast Draft.title Draft.description Draft.category Draft.price]
    in Hval.
  apply app_eq_nil in Hval as [Ht Hval].
  apply app_eq_nil in Hval as [Hd Hval].
  do 3 apply app_eq_nil in Hval as [_ Hval].
  apply app_eq_nil in Hval as [Hc Hp].
  apply title_errors_nil in Ht as [Ht1 Ht2].
  apply description_errors_nil in Hd as [Hd1 Hd2].
  apply category_errors_nil in Hc as [c' [-> Hc]].
  pose proof (price_errors_nil _ Hp) as Hpr.
  destruct Hv as [Hv|[(t' & -> & Hv)|[Hv|[(d' & -> & Hv)|[Hv|(s & -> & Hne & Hv)]]]]].
  - congruence.
  - specialize (Ht2 _ eq_refl). lia.
  - congruence.
  - specialize (Hd2 _ eq_refl). lia.
  - by apply (Hv c').
  - cbn in Hpr. destruct (String.eqb_spec s ""); [done|]. cbn in Hpr.
    specialize (Hpr _ eq_refl). congruence.
Qed.

Lemma inStock_of_false (v : option string) :
  inStock_of v = false <-> v = Some "false".
Proof.
  unfold inStock_of. destruct v as [s|]; [|done].
  destruct (String.eqb_spec s "false"); split; intros; simplify_eq; done.
Qed.

(** The owner of a created product is the requester. *)
Lemma created_owner (req : Req) (io : IO) (w : World) :
  status (createProduct parseFloat req io w).1 = 201 ->
  ∃ (u : User.t) (p : Product.t),
    user req = Some u
    ∧ products (createProduct parseFloat req io w).2 !! newObjectId io = Some p
    ∧ Product.shopId p = User._id u.
Proof.
  unfold createProduct. destruct (body req) as [t d c pr st] eqn:Hb.
  unfold_M. cbn.
  repeat (case_match; simplify_eq/=; try done).
  all: intros _; eexists _, _; split; [reflexivity|].
  all: split; [apply lookup_insert_eq|reflexivity].
Qed.

(** C9. The value of the [inStock] form field has no part in whether
    [createProduct] creates the product: the status is the same for every
    value of the field and without it.  And whenever [createProduct]
    answers 201, the product in the answer is the one stored under the new
    id, and its [inStock] flag is false if the field is the string "false",
    and true for every other value of the field and when the field is
    absent. *)
Theorem created_inStock_flag (req : Req) (io : IO) (w : World) :
  (∀ value : option string,
     status (createProduct parseFloat (with_inStock value req) io w).1
     = status (createProduct parseFloat req io w).1)
  ∧ (status (createProduct parseFloat req io w).1 = 201 ->
     ∃ v : View,
       data (createProduct parseFloat req io w).1 = OneProduct (Some v)
       ∧ products (createProduct parseFloat req io w).2 !! newObjectId io = Some (doc v)
       ∧ (Product.inStock (doc v) = false <-> Body.inStock (body req) = Some "false")
       ∧ (Body.inStock (body req) ≠ Some "false" -> Product.inStock (doc v) = true)).
Proof.
  split.
  - intros value. unfold createProduct, with_inStock.
    destruct (body req) as [t d c pr st] eqn:Hb.
    unfold_M. cbn. unfold Schema.validate, Schema.cast.
    cbn [Draft.title Draft.description Draft.imageURL Draft.imagePublicId
         Draft.shopId Draft.category Draft.price].
    repeat (case_match; simplify_eq/=; try done).
  - unfold createProduct. destruct (body req) as [t d c pr st] eqn:Hb.
    unfold_M. cbn.
    pose proof (inStock_of_false st) as Hst.
    repeat (case_match; simplify_eq/=; try done).
    all: intros _; eexists; split; [reflexivity|]; cbn.
    all: split; [apply lookup_insert_eq|].
    all: split; [done|]; intros Hne; destruct (inStock_of st); [done|]; tauto.
Qed.

(** *** Updating *)

(** What [updateProduct] does to the product store for the owner of an
    existing product: it answers 500 and the store is as before, or it
    answers 200 with the stored document updated by [update_of]. *)
Lemma updateProduct_owner (req : Req) (io : IO) (w : World)
    (oid : ObjectId) (p : Product.t) (u : User.t) :
  castObjectId (Params.id (params req)) = Some oid ->
  products w !! oid = Some p ->
  user req = Some u ->
  User._id u = Product.shopId p ->
  let r := updateProduct castObjectId parseFloat req io w in
  (r.1 = json 500 false "Server error updating product"
   ∧ products r.2 = products w)
  ∨ (∃ image own,
       let ud := Schema.cast_update (update_of parseFloat (body req) p image) in
       let p' := Schema.apply_update ud (now io) p in
       Schema.validate_update ud = []
       ∧ r.1 = json_data 200 true (Some "Product updated successfully")
                 (OneProduct (Some {| doc := p'; owner := own |}))
       ∧ products r.2 = <[oid := p']> (products w)).
Proof.
  intros Hcast Hp Hu Hown r. subst r.
  unfold updateProduct. unfold_M. rewrite Hcast, Hp, Hu. cbn.
  rewrite Hown, toString_eq. unfold update_of.
  destruct (body req) as [t d c pr st]. cbn.
  destruct (file req) as [f|]; cbn.
  - destruct (negb (String.eqb (Product.imagePublicId p) "")); cbn.
    + destruct (destroy io (Product.imagePublicId p)); cbn; [by left|].
      destruct (upload_stream io f) as [e|res]; cbn; [by left|].
      repeat (case_match; simplify_eq/=; try by left).
      all: right; exists (Some res); eexists; cbn; split_and!; done.
    + destruct (upload_stream io f) as [e|res]; cbn; [by left|].
      repeat (case_match; simplify_eq/=; try by left).
      all: right; exists (Some res); eexists; cbn; split_and!; done.
  - repeat (case_match; simplify_eq/=; try by left).
    all: right; exists None; eexists; cbn; split_and!; done.
Qed.

Lemma or_else_empty (b : string) : Js.or_else (Some "") b = Js.or_else None b.
Proof. reflexivity. Qed.

Lemma required_nil (path msg : string) (v : string) (rest : list (option string)) :
  Schema.path_errors path (Schema.required msg (Some v) :: rest) = [] -> v ≠ "".
Proof.
  unfold Schema.path_errors, Schema.required. cbn.
  destruct (String.eqb_spec v ""); cbn; [done|]. by intros _.
Qed.

Lemma validate_update_nonempty (ud : UpdateData.t) :
  Schema.validate_update ud = [] ->
  UpdateData.title ud ≠ "" ∧ UpdateData.description ud ≠ ""
  ∧ UpdateData.category ud ≠ "".
Proof.
  unfold Schema.validate_update. intros H.
  apply app_eq_nil in H as [Ht H]. apply app_eq_nil in H as [Hd H].
  apply app_eq_nil in H as [Hc _].
  split_and!; eapply required_nil; eassumption.
Qed.

(** For the owner of an existing product with an image: when the image
    store deletes the stored image and then rejects the upload of the new
    one, [updateProduct] answers 500, the record is as before, and the old
    image is gone from the image store. *)
Lemma update_upload_failure (req : Req) (io : IO) (w : World)
    (oid : ObjectId) (p : Product.t) (u : User.t) (f : File) (e : JsError) :
  castObjectId (Params.id (params req)) = Some oid ->
  products w !! oid = Some p ->
  user req = Some u ->
  User._id u = Product.shopId p ->
  Product.imagePublicId p ≠ "" ->
  file req = Some f ->
  destroy io (Product.imagePublicId p) = None ->
  upload_stream io f = inl e ->
  updateProduct castObjectId parseFloat req io w
    = (json 500 false "Server error updating product",
       set_assets w (assets w ∖ {[Product.imagePublicId p]})).
Proof.
  intros Hcast Hp Hu Hown Hpid Hf Hd He.
  unfold updateProduct. unfold_M. rewrite Hcast, Hp, Hu. cbn.
  rewrite Hown, toString_eq, Hf. destruct (body req). cbn.
  destruct (String.eqb_spec (Product.imagePublicId p) ""); [done|]. cbn.
  by rewrite Hd, He.
Qed.

(** C7. For the owner of an existing, stored-trimmed product, after
    [updateProduct] the product is still stored under its id and every
    field absent from the request body has the value it had: title,
    description, category, price and inStock.  When the answer is 200,
    the product in the answer is the stored one. *)
Theorem update_keeps_absent_fields (req : Req) (io : IO) (w : World)
    (oid : ObjectId) (p : Product.t) (u : User.t) :
  castObjectId (Params.id (params req)) = Some oid ->
  products w !! oid = Some p ->
  user req = Some u ->
  User._id u = Product.shopId p ->
  trimmed p ->
  let r := updateProduct castObjectId parseFloat req io w in
  ∃ p' : Product.t,
    products r.2 !! oid = Some p'
    ∧ (∀ v, data r.1 = OneProduct (Some v) -> doc v = p')
    ∧ (Body.title (body req) = None -> Product.title p' = Product.title p)
    ∧ (Body.description (body req) = None ->
       Product.description p' = Product.description p)
    ∧ (Body.category (body req) = None -> Product.category p' = Product.category p)
    ∧ (Body.price (body req) = None -> Product.price p' = Product.price p)
    ∧ (Body.inStock (body req) = None -> Product.inStock p' = Product.inStock p).
Proof.
  intros Hcast Hp Hu Hown [Ht Hd] r.
  destruct (updateProduct_owner req io w oid p u Hcast Hp Hu Hown)
    as [[Hr Hw]|(image & own & Hv & Hr & Hw)]; fold r in Hr, Hw.
  - exists p. rewrite Hw, Hr. split_and!; try done.
  - eexists. rewrite Hw, Hr, lookup_insert_eq. split; [reflexivity|].
    split; [by intros v [= <-]|].
    cbn. split_and!; intros ->; cbn; try done.
    by destruct (Product.price p).
Qed.

(** C10. For the owner of an existing product, [updateProduct] with the
    empty string for title, description or category does exactly what it
    does with that field left out, and no update makes one of these three
    fields of the stored product empty. *)
Theorem update_empty_string_is_omission
    (prm : Params.t) (qry : Query.t) (fl : option File) (u : User.t)
    (t d c pr st : option string) (io : IO) (w : World)
    (oid : ObjectId) (p : Product.t) :
  castObjectId (Params.id prm) = Some oid ->
  products w !! oid = Some p ->
  User._id u = Product.shopId p ->
  let req b := {| params := prm; query := qry; body := b; file := fl; user := Some u |} in
  let update b := updateProduct castObjectId parseFloat (req b) io w in
  update (Body.mk (Some "") d c pr st) = update (Body.mk None d c pr st)
  ∧ update (Body.mk t (Some "") c pr st) = update (Body.mk t None c pr st)
  ∧ update (Body.mk t d (Some "") pr st) = update (Body.mk t d None pr st)
  ∧ ∃ p' : Product.t,
      products (update (Body.mk t d c pr st)).2 !! oid = Some p'
      ∧ (Product.title p' = "" -> Product.title p = "")
      ∧ (Product.description p' = "" -> Product.description p = "")
      ∧ (Product.category p' = "" -> Product.category p = "").
Proof.
  intros Hcast Hp Hown req update.
  split; [reflexivity|]. split; [reflexivity|]. split; [reflexivity|].
  destruct (updateProduct_owner (req (Body.mk t d c pr st)) io w oid p u
              Hcast Hp eq_refl Hown)
    as [[Hr Hw]|(image & own & Hv & Hr & Hw)]; subst update req; cbn beta.
  - exists p. by rewrite Hw.
  - eexists. rewrite Hw, lookup_insert_eq. split; [reflexivity|].
    apply validate_update_nonempty in Hv as (H1 & H2 & H3).
    cbn in *. split_and!; intros He; congruence.
Qed.

(** *** Sequences of requests *)

Lemma select_same (f : Filter) (w : World) :
  (select castObjectId textSearch f w).2 = w.
Proof. unfold select. unfold_M. by repeat (case_match; simplify_eq/=). Qed.

Lemma find_same (f : Filter) (s n : Z) (w : World) :
  (find castObjectId textSearch f s n w).2 = w.
Proof.
  unfold find. pose proof (select_same f w) as Hs.
  destruct (select castObjectId textSearch f w) as [[e|l] w1] eqn:Hsel;
    cbn in Hs; subst w1.
  - by rewrite (bind_throw _ _ _ _ _ Hsel).
  - rewrite (bind_ok _ _ _ _ _ Hsel). unfold skip.
    destruct (s <? 0); [done|].
    erewrite bind_ok by reflexivity.
    by destruct (populate_all_spec (limit n (drop (Z.to_nat s) (merge_sort newer_first l))) w)
      as [vs [-> _]].
Qed.

Lemma countDocuments_same (f : Filter) (w : World) :
  (countDocuments castObjectId textSearch f w).2 = w.
Proof.
  unfold countDocuments. pose proof (select_same f w) as Hs.
  destruct (select castObjectId textSearch f w) as [[e|l] w1] eqn:Hsel;
    cbn in Hs; subst w1.
  - by rewrite (bind_throw _ _ _ _ _ Hsel).
  - by rewrite (bind_ok _ _ _ _ _ Hsel).
Qed.

Lemma page_same (f : Filter) (s n : Z) (k : list View -> Z -> Response)
    (h : JsError -> Response) (w : World) :
  (try_catch (products ← find castObjectId textSearch f s n;
              total ← countDocuments castObjectId textSearch f;
              mret (k products total)) h w).2 = w.
Proof.
  unfold try_catch.
  pose proof (find_same f s n w) as Hf.
  destruct (find castObjectId textSearch f s n w) as [[e|vs] w1] eqn:Hfind;
    cbn in Hf; subst w1.
  - by rewrite (bind_throw _ _ _ _ _ Hfind).
  - rewrite (bind_ok _ _ _ _ _ Hfind).
    pose proof (countDocuments_same f w) as Hc.
    destruct (countDocuments castObjectId textSearch f w) as [[e|n'] w1] eqn:Hcount;
      cbn in Hc; subst w1.
    + by rewrite (bind_throw _ _ _ _ _ Hcount).
    + by rewrite (bind_ok _ _ _ _ _ Hcount).
Qed.

Lemma getProducts_same req io w :
  (getProducts castObjectId textSearch req io w).2 = w.
Proof. unfold getProducts. apply page_same. Qed.

Lemma getProductsByCategory_same req io w :
  (getProductsByCategory castObjectId textSearch req io w).2 = w.
Proof. unfold getProductsByCategory. apply page_same. Qed.

Lemma serve_step (x : Route * Req * IO) (w : World) :
  product_step (products w)
    (products (serve castObjectId textSearch parseFloat x w)).
Proof.
  destruct x as [[r req] io]. unfold serve, router. destruct r.
  - apply createProduct_step.
  - rewrite getProducts_same. constructor.
  - rewrite getProductsByCategory_same. constructor.
  - rewrite getProduct_same. constructor.
  - apply updateProduct_step.
  - apply deleteProduct_step.
Qed.

Lemma product_step_owner (m m' : gmap string Product.t) (id : ObjectId)
    (p p' : Product.t) :
  product_step m m' -> m !! id = Some p -> m' !! id = Some p' ->
  Product.shopId p' = Product.shopId p.
Proof.
  intros Hstep Hp Hp'. destruct Hstep as [|id0 d now Hfree _|id0 p0 ud now Hp0 _|id0].
  - congruence.
  - rewrite lookup_insert_ne in Hp' by congruence. congruence.
  - destruct (decide (id0 = id)) as [->|Hne].
    + rewrite lookup_insert_eq in Hp'. simplify_eq. reflexivity.
    + rewrite lookup_insert_ne in Hp' by done. congruence.
  - destruct (decide (id0 = id)) as [->|Hne].
    + by rewrite lookup_delete_eq in Hp'.
    + rewrite lookup_delete_ne in Hp' by done. congruence.
Qed.

Lemma product_step_trimmed (m m' : gmap string Product.t) :
  product_step m m' -> map_Forall (fun _ p => trimmed p) m ->
  map_Forall (fun _ p => trimmed p) m'.
Proof.
  intros Hstep Hm. destruct Hstep as [|id0 d now _ _|id0 p0 ud now _ _|id0].
  - done.
  - apply map_Forall_insert_2; [|done].
    split; apply trim_default.
  - apply map_Forall_insert_2; [|done].
    split; apply trim_idempotent.
  - by apply map_Forall_delete.
Qed.

(** Every document of a catalog that was built through the API from an
    empty store is stored trimmed. *)
Lemma run_trimmed (trace : list (Route * Req * IO)) (w : World) :
  map_Forall (fun _ p => trimmed p) (products w) ->
  map_Forall (fun _ p => trimmed p)
    (products (run castObjectId textSearch parseFloat trace w)).
Proof.
  revert w. induction trace as [|x trace IH]; intros w Hw; [done|].
  cbn. apply IH. eapply product_step_trimmed; [apply serve_step|done].
Qed.

(** C6. Along every sequence of requests, as long as the product is not
    deleted on the way, the product stored under an id has the owner
    ([shopId]) it had at the start; and after one [updateProduct],
    whatever the request, the product is still stored with the owner it
    had. *)
Theorem owner_never_changes (trace : list (Route * Req * IO)) (w : World)
    (id : ObjectId) (p : Product.t) :
  products w !! id = Some p ->
  kept castObjectId textSearch parseFloat id trace w ->
  (∃ p', products (run castObjectId textSearch parseFloat trace w) !! id = Some p'
         ∧ Product.shopId p' = Product.shopId p)
  ∧ (∀ (req : Req) (io : IO),
       ∃ p', products (updateProduct castObjectId parseFloat req io w).2 !! id = Some p'
             ∧ Product.shopId p' = Product.shopId p).
Proof.
  intros Hp Hkept. split.
  - revert w p Hp Hkept. induction trace as [|x trace IH]; intros w p Hp Hkept.
    + by exists p.
    + cbn in *. destruct Hkept as [[p1 Hp1] Hkept].
      destruct (IH _ p1 Hp1 Hkept) as [p' [Hp' Hown]].
      exists p'. split; [done|]. rewrite Hown.
      eapply product_step_owner; [apply serve_step|done..].
  - intros req io.
    pose proof (updateProduct_step req io w) as Hstep.
    assert (Hsome : is_Some (products (updateProduct castObjectId parseFloat req io w).2 !! id)).
    { clear Hstep. unfold updateProduct. destruct (body req). unfold_M. cbn.
      repeat (case_match; simplify_eq/=; try by eauto).
      all: rewrite lookup_insert; case_decide; eauto. }
    destruct Hsome as [p' Hp']. exists p'. split; [done|].
    eapply product_step_owner; done.
Qed.

End Properties.

(** ** The properties on the small catalog *)

Import Fixture.

(** C1. Alice replaces the image of her lamp and the upload of the new
    image is rejected: the answer is 500 and the record is unchanged, but
    the old image, which was in the image store, has been deleted from it
    before the upload was tried. *)
Theorem update_upload_failure_loses_old_image :
  let r := updateProduct castObjectId parseFloat
             (request lamp_id (Some alice) no_body (Some photo))
             io_upload_fails world in
  r.1 = json 500 false "Server error updating product"
  ∧ products r.2 = products world
  ∧ Product.imagePublicId lamp ∈ assets world
  ∧ Product.imagePublicId lamp ∉ assets r.2.
Proof.
  cbn zeta.
  rewrite (update_upload_failure castObjectId parseFloat _ io_upload_fails world
             lamp_id lamp alice photo timeout)
    by (reflexivity || discriminate).
  split_and!; [reflexivity|reflexivity|vm_compute; reflexivity|].
  cbn. intros [_ Hn]%elem_of_difference. apply Hn. by apply elem_of_singleton.
Qed.

(** C2, as stated, fails: Alice deletes her lamp while the image store
    rejects the deletion of the image; the answer is the 500 of the
    handler's [catch], nothing was deleted and the record is still
    stored. *)
Lemma delete_image_failure_blocks_record :
  deleteProduct castObjectId (request lamp_id (Some alice) no_body None)
    io_destroy_fails world
  = (json 500 false "Server error deleting product", world)
  ∧ products world !! lamp_id = Some lamp.
Proof. split; vm_compute; reflexivity. Qed.

(** Alice deletes her lamp, once with the image store rejecting and once
    with it resolving. *)
Lemma delete_follows_image_deletion_witness :
  deleteProduct castObjectId (request lamp_id (Some alice) no_body None)
    io_destroy_fails world
  = (json 500 false "Server error deleting product", world)
  ∧ ∃ w', deleteProduct castObjectId (request lamp_id (Some alice) no_body None)
            io_ok world
          = (json 200 true "Product deleted successfully", w')
          ∧ products w' !! lamp_id = None
          ∧ Product.imagePublicId lamp ∉ assets w'.
Proof.
  split.
  - apply (delete_follows_image_deletion castObjectId
             (request lamp_id (Some alice) no_body None) io_destroy_fails world
             lamp_id lamp alice);
      [reflexivity|reflexivity|reflexivity|reflexivity|discriminate|].
    by exists timeout.
  - apply (delete_follows_image_deletion castObjectId
             (request lamp_id (Some alice) no_body None) io_ok world
             lamp_id lamp alice);
      [reflexivity|reflexivity|reflexivity|reflexivity|discriminate|reflexivity].
Defined.

(** C3. Alice creates a product with an image and a title of 101
    characters: [createProduct] answers 500, not 400, and the uploaded
    image stays in the image store; the error middleware would have
    answered 400 to the validation error that [save] threw. *)
Theorem create_overlong_title_is_500 :
  let req := request "" (Some alice)
               (Body.mk (Some long_title) (Some "A lamp") (Some "Books") None None)
               (Some photo) in
  let r := createProduct parseFloat req io_ok world in
  String.length long_title = 101%nat
  ∧ Schema.validate
      (Schema.cast
         {| Draft.title := Some long_title; Draft.description := Some "A lamp";
            Draft.imageURL := Some (secure_url uploaded);
            Draft.imagePublicId := Some (public_id uploaded);
            Draft.shopId := Some (User._id alice); Draft.category := Some "Books";
            Draft.price := None; Draft.inStock := Some true |})
    = [("title", "Title cannot exceed 100 characters")]
  ∧ r.1 = json 500 false "Server error creating product"
  ∧ products r.2 = products world
  ∧ public_id uploaded ∈ assets r.2
  ∧ errorHandler (ValidationError [("title", "Title cannot exceed 100 characters")])
    = inr (json 400 false "Title cannot exceed 100 characters").
Proof.
  cbn zeta. split_and!; vm_compute; reflexivity.
Qed.

(** Bob tries to update and to delete the lamp of Alice. *)
Lemma non_owner_is_rejected_witness :
  User._id bob ≠ Product.shopId lamp
  ∧ updateProduct castObjectId parseFloat (request lamp_id (Some bob) lamp_form (Some photo)) io_ok world
    = (json 403 false "Access denied. You can only update your own products.", world)
  ∧ deleteProduct castObjectId (request lamp_id (Some bob) lamp_form (Some photo)) io_ok world
    = (json 403 false "Access denied. You can only delete your own products.", world).
Proof.
  split; [discriminate|].
  apply (non_owner_is_rejected castObjectId parseFloat
           (request lamp_id (Some bob) lamp_form (Some photo)) io_ok world lamp_id lamp bob);
    [reflexivity|reflexivity|reflexivity|discriminate].
Defined.


(** C5, as stated, fails: a listing with [limit=0] is served with the
    default limit of 10; on the one-product catalog it returns one product,
    more than the limit asked for, and reports [limit: 10]. *)
Lemma listing_limit_zero_exceeds_limit :
  let q := Query.mk None (Some "0") None None None in
  Js.parseInt (Query.limit q) = Some 0
  ∧ ∃ views pg,
      getProducts castObjectId textSearch (listing q) io_ok world
        = (json_data 200 true None (ProductPage views pg), world)
      ∧ length views = 1%nat
      ∧ ¬ (Z.of_nat (length views) <= 0)
      ∧ pg_limit pg = 10.
Proof.
  cbn zeta. split; [reflexivity|].
  eexists _, _. split; [vm_compute; reflexivity|].
  cbn. split_and!; [reflexivity|lia|reflexivity].
Qed.

(** The second page of one, of the products for the garden in the shop of
    Alice: the table is on the first page, the lamp on the second; the
    chair of Bob and the cookbook are not counted. *)
Lemma listing_page_witness :
  let q := Query.mk (Some "2") (Some "1") (Some "Home & Garden") None
             (Some "64B0F1A2C3D4E5F6A7B8C901") in
  ∃ views pg,
    getProducts castObjectId textSearch (listing q) io_ok Sample.garden
      = (json_data 200 true None (ProductPage views pg), Sample.garden)
    ∧ doc <$> views = [lamp]
    ∧ pg_page pg = 2 ∧ pg_limit pg = 1
    ∧ Z.of_nat (length views) <= 1
    ∧ Forall (fun v => doc v ∈ all_products Sample.garden
                       ∧ in_filter castObjectId textSearch q (doc v) = true) views
    ∧ (∀ v, v ∈ views -> Product.category (doc v) = "Home & Garden")
    ∧ pg_total pg = 2
    ∧ is_ceiling (pg_pages pg) 2 1.
Proof.
  intros q.
  destruct (listing_page castObjectId textSearch (listing q) io_ok Sample.garden)
    as (views & pg & Hr & Hpage & Hlimit & _ & Hlen & Hall & Hcat & Htotal & Hceil & _).
  - intros n Hn. vm_compute in Hn. injection Hn as <-. lia.
  - intros n Hn. vm_compute in Hn. injection Hn as <-. lia.
  - intros s Hs _. injection Hs as <-. eexists. vm_compute. reflexivity.
  - assert (Ht : pg_total pg = 2) by (rewrite Htotal; vm_compute; reflexivity).
    assert (Hv : getProducts castObjectId textSearch (listing q) io_ok Sample.garden
                 = (json_data 200 true None
                      (ProductPage
                         [{| doc := lamp; owner := Some (owner_summary false alice) |}]
                         {| pg_page := 2; pg_pages := 2; pg_total := 2; pg_limit := 1 |}),
                    Sample.garden))
      by (vm_compute; reflexivity).
    exists views, pg. rewrite Hlimit in Hlen, Hceil. rewrite Ht in Hceil.
    split_and!;
      [exact Hr| |exact Hpage|exact Hlimit|exact Hlen|exact Hall| |exact Ht|exact Hceil].
    + rewrite Hv in Hr. by injection Hr as <- <-.
    + intros v Hv'. apply (Hcat _ v eq_refl); [discriminate|exact Hv'].
Defined.

(** Alice renames her lamp, somebody lists the catalog, Bob creates a
    product: the lamp is still Alice's. *)
Lemma owner_never_changes_witness :
  let trace :=
    [(PUT_products_id,
      request lamp_id (Some alice) (Body.mk (Some "Reading lamp") None None None None) None,
      io_ok);
     (GET_products, listing no_query, io_ok);
     (POST_products, request "" (Some bob) lamp_form (Some photo), io_ok)] in
  products world !! lamp_id = Some lamp
  ∧ ∃ p', products (run castObjectId textSearch parseFloat trace world) !! lamp_id = Some p'
          ∧ Product.shopId p' = Product.shopId lamp.
Proof.
  intros trace. split; [reflexivity|].
  apply (owner_never_changes castObjectId textSearch parseFloat trace world lamp_id lamp).
  - reflexivity.
  - repeat split; eexists; vm_compute; reflexivity.
Defined.

(** Alice sends a new title only. *)
Lemma update_keeps_absent_fields_witness :
  let req := request lamp_id (Some alice)
               (Body.mk (Some "Reading lamp") None None None None) None in
  trimmed lamp
  ∧ ∃ p', products (updateProduct castObjectId parseFloat req io_ok world).2 !! lamp_id
            = Some p'
          ∧ Product.description p' = Product.description lamp
          ∧ Product.category p' = Product.category lamp
          ∧ Product.price p' = Product.price lamp
          ∧ Product.inStock p' = Product.inStock lamp.
Proof.
  intros req. assert (Ht : trimmed lamp) by (split; reflexivity).
  split; [exact Ht|].
  destruct (update_keeps_absent_fields castObjectId parseFloat req io_ok world
              lamp_id lamp alice eq_refl eq_refl eq_refl eq_refl Ht)
    as (p' & Hp' & _ & _ & Hd & Hc & Hpr & Hst).
  exists p'. split_and!;
    [exact Hp'|exact (Hd eq_refl)|exact (Hc eq_refl)|exact (Hpr eq_refl)|exact (Hst eq_refl)].
Defined.

(** Alice deletes her lamp; a visitor then asks for it. *)
Lemma deleted_product_is_not_found_witness :
  let req := request lamp_id (Some alice) no_body None in
  let gone := (deleteProduct castObjectId req io_ok world).2 in
  status (deleteProduct castObjectId req io_ok world).1 = 200
  ∧ getProduct castObjectId (request lamp_id None no_body None) io_ok gone
    = (json 404 false "Product not found", gone).
Proof.
  intros req gone.
  destruct (deleted_product_is_not_found castObjectId req io_ok world
              lamp_id lamp alice eq_refl eq_refl eq_refl eq_refl) as [Hok Hget].
  split; [exact (Hok eq_refl)|].
  exact (Hget (Hok eq_refl) (request lamp_id None no_body None) io_ok eq_refl).
Defined.

(** Alice creates a product with the form value "false" for [inStock]: it
    is created, out of stock; with "False" it is created as well. *)
Lemma created_inStock_flag_witness :
  let req := request "" (Some alice)
               (Body.mk (Some "Desk lamp") (Some "A lamp for the desk")
                  (Some "Home & Garden") (Some "25") (Some "false"))
               (Some photo) in
  status (createProduct parseFloat req io_ok empty_world).1 = 201
  ∧ (∃ v, data (createProduct parseFloat req io_ok empty_world).1 = OneProduct (Some v)
          ∧ products (createProduct parseFloat req io_ok empty_world).2
              !! newObjectId io_ok = Some (doc v)
          ∧ Product.inStock (doc v) = false)
  ∧ status (createProduct parseFloat (with_inStock (Some "False") req) io_ok
              empty_world).1 = 201.
Proof.
  intros req.
  assert (Hs : status (createProduct parseFloat req io_ok empty_world).1 = 201)
    by (vm_compute; reflexivity).
  destruct (created_inStock_flag parseFloat req io_ok empty_world) as [Hany Hflag].
  split; [exact Hs|]. split.
  - destruct (Hflag Hs) as (v & Hv & Hstored & Hfalse & _).
    exists v. split; [exact Hv|]. split; [exact Hstored|]. apply Hfalse. reflexivity.
  - rewrite (Hany (Some "False")). exact Hs.
Defined.

(** Alice sends empty strings for the three text fields and a new price. *)
Lemma update_empty_string_is_omission_witness :
  let update b :=
    updateProduct castObjectId parseFloat (request lamp_id (Some alice) b None)
      io_ok world in
  update (Body.mk (Some "") None None (Some "30") None)
    = update (Body.mk None None None (Some "30") None)
  ∧ ∃ p', products (update (Body.mk (Some "") (Some "") (Some "") (Some "30") None)).2
            !! lamp_id = Some p'
          ∧ Product.title p' ≠ "".
Proof.
  intros update.
  destruct (update_empty_string_is_omission castObjectId parseFloat
              (Params.mk lamp_id "") no_query None alice
              (Some "") (Some "") (Some "") (Some "30") None io_ok world lamp_id lamp
              eq_refl eq_refl eq_refl)
    as (_ & _ & _ & p' & Hp' & Ht & _).
  split.
  - apply (update_empty_string_is_omission castObjectId parseFloat
             (Params.mk lamp_id "") no_query None alice
             None None None (Some "30") None io_ok world lamp_id lamp
             eq_refl eq_refl eq_refl).
  - exists p'. split; [exact Hp'|]. intros He. specialize (Ht He). discriminate.
Defined.

(** ** Further properties of the controller *)

(** *** What the schema accepts *)

Lemma title_errors_iff (v : option string) :
  Schema.title_errors v = []
  <-> ∃ t, v = Some t ∧ t ≠ "" ∧ (String.length t <= 100)%nat.
Proof.
  unfold Schema.title_errors, Schema.path_errors, Schema.required, Schema.maxlength,
    Js.truthy.
  destruct v as [t|]; cbn -[Nat.ltb]; [|split; [done|by intros (? & ? & _)]].
  destruct (String.eqb_spec t ""); cbn -[Nat.ltb];
    [split; [done|by intros (? & [= <-] & ? & _)]|].
  destruct (Nat.ltb_spec 100 (String.length t)); cbn.
  - split; [done|]. intros (? & [= <-] & _ & ?). lia.
  - split; [|done]. intros _. exists t. split_and!; [done|done|lia].
Qed.

Lemma description_errors_iff (v : option string) :
  Schema.description_errors v = []
  <-> ∃ t, v = Some t ∧ t ≠ "" ∧ (String.length t <= 1000)%nat.
Proof.
  unfold Schema.description_errors, Schema.path_errors, Schema.required,
    Schema.maxlength, Js.truthy.
  destruct v as [t|]; cbn -[Nat.ltb]; [|split; [done|by intros (? & ? & _)]].
  destruct (String.eqb_spec t ""); cbn -[Nat.ltb];
    [split; [done|by intros (? & [= <-] & ? & _)]|].
  destruct (Nat.ltb_spec 1000 (String.length t)); cbn.
  - split; [done|]. intros (? & [= <-] & _ & ?). lia.
  - split; [|done]. intros _. exists t. split_and!; [done|done|lia].
Qed.

Lemma required_iff (path msg v : string) :
  Schema.path_errors path [Schema.required msg (Some v)] = [] <-> v ≠ "".
Proof.
  unfold Schema.path_errors, Schema.required, Js.truthy. cbn.
  destruct (String.eqb_spec v ""); cbn; split; done.
Qed.

Lemma category_not_empty (c : string) : c ∈ Schema.categories -> c ≠ "".
Proof.
  intros Hc Heq. subst c.
  apply (bool_decide_eq_false_1 ("" ∈ Schema.categories)); [|exact Hc].
  vm_compute. reflexivity.
Qed.

Lemma category_errors_iff (v : option string) :
  Schema.category_errors v = [] <-> ∃ c, v = Some c ∧ c ∈ Schema.categories.
Proof.
  unfold Schema.category_errors, Schema.path_errors, Schema.required, Schema.enum,
    Js.truthy.
  destruct v as [c|]; cbn -[Schema.categories];
    [|split; [done|by intros (? & ? & _)]].
  destruct (String.eqb_spec c ""); cbn -[Schema.categories].
  - split; [done|]. intros (? & [= <-] & Hc). by apply category_not_empty in Hc.
  - case_bool_decide; cbn; split; try done.
    + intros _. by exists c.
    + by intros (? & [= <-] & ?).
Qed.

Lemma price_errors_iff (v : option Js.Number) :
  Schema.price_errors v = []
  <-> ∀ n, v = Some n -> Js.isNaN n = false ∧ Js.lt_zero n = false.
Proof.
  unfold Schema.price_errors, Schema.path_errors, Schema.number_min0.
  destruct v as [n|]; cbn; [|split; [by intros _ ? ?|done]].
  destruct (Js.isNaN n) eqn:Hn; cbn.
  - split; [done|]. intros H. destruct (H n eq_refl). congruence.
  - destruct (Js.lt_zero n) eqn:Hl; cbn.
    + split; [done|]. intros H. destruct (H n eq_refl). congruence.
    + split; [|done]. by intros _ ? [= <-].
Qed.

(** The schema accepts the draft of a request exactly when the body is
    [accepted] and the upload result names an image. *)
Lemma validate_draft_iff (parseFloat : string -> Js.Number) (b : Body.t)
    (res : UploadResult) (uid : ObjectId) :
  Schema.validate (Schema.cast (draft_of parseFloat b res uid)) = []
  <-> accepted parseFloat b ∧ secure_url res ≠ "" ∧ public_id res ≠ "".
Proof.
  unfold Schema.validate, accepted.
  cbn [Schema.cast draft_of Draft.title Draft.description Draft.imageURL
       Draft.imagePublicId Draft.shopId Draft.category Draft.price].
  rewrite !app_nil, title_errors_iff, description_errors_iff, category_errors_iff,
    price_errors_iff.
  unfold Schema.imageURL_errors, Schema.imagePublicId_errors. rewrite !required_iff.
  destruct b as [t d c pr st]. cbn [Body.title Body.description Body.category Body.price].
  split.
  - intros ((t' & Ht & Ht1 & Ht2) & (d' & Hd & Hd1 & Hd2) & Hu & Hp & _ & Hc & Hpr).
    destruct t as [t|]; [|done]. destruct d as [d|]; [|done]. simplify_eq/=.
    split_and!; try done; [by exists t|by exists d|].
    intros s -> Hs. apply Hpr. unfold Js.truthy.
    by destruct (String.eqb_spec s "").
  - intros (((t' & -> & Ht1 & Ht2) & (d' & -> & Hd1 & Hd2) & Hc & Hpr) & Hu & Hp).
    split_and!; try done; [by exists (Js.trim t')|by exists (Js.trim d')|].
    intros n Hn. destruct pr as [s|]; [|done]. unfold Js.truthy in Hn.
    destruct (String.eqb_spec s ""); [done|]. cbn in Hn. simplify_eq.
    by apply Hpr.
Qed.

Section Further.

Variable castObjectId : string -> option ObjectId.
Variable textSearch : string -> Product.t -> bool.
Variable parseFloat : string -> Js.Number.

(** *** Creating *)

(** [createProduct], case by case. *)
Lemma createProduct_spec (req : Req) (io : IO) (w : World) :
  createProduct parseFloat req io w =
  match file req with
  | None => (json 400 false "Product image is required", w)
  | Some f =>
      match upload_stream io f with
      | inl _ => (json 500 false "Server error creating product", w)
      | inr res =>
          let w1 := set_assets w ({[public_id res]} ∪ assets w) in
          match user req with
          | None => (json 500 false "Server error creating product", w1)
          | Some u =>
              let d := Schema.cast (draft_of parseFloat (body req) res (User._id u)) in
              let p := Schema.to_document d (newObjectId io) (now io) in
              match Schema.validate d, products w !! newObjectId io with
              | [], None =>
                  (json_data 201 true (Some "Product created successfully")
                     (OneProduct
                        (Some {| doc := p;
                                 owner := owner_summary false <$> users w !! Product.shopId p |})),
                   set_products w1 (<[newObjectId io := p]> (products w)))
              | _, _ => (json 500 false "Server error creating product", w1)
              end
          end
      end
  end.
Proof.
  unfold createProduct, draft_of. destruct (body req) as [t d c pr st].
  destruct (file req) as [f|]; [|reflexivity].
  unfold_M. cbn. destruct (upload_stream io f) as [e|res]; [reflexivity|]. cbn.
  destruct (user req) as [u|]; [|reflexivity]. cbn.
  destruct (Schema.validate _); [|reflexivity]. cbn.
  destruct (products w !! newObjectId io); reflexivity.
Qed.

(** What a 201 of [createProduct] tells. *)
Lemma createProduct_201_inv (req : Req) (io : IO) (w : World) :
  status (createProduct parseFloat req io w).1 = 201 ->
  ∃ (f : File) (res : UploadResult) (u : User.t),
    file req = Some f ∧ upload_stream io f = inr res
    ∧ secure_url res ≠ "" ∧ public_id res ≠ ""
    ∧ user req = Some u
    ∧ accepted parseFloat (body req)
    ∧ products w !! newObjectId io = None.
Proof.
  rewrite createProduct_spec.
  destruct (file req) as [f|] eqn:Hf; [|done].
  destruct (upload_stream io f) as [e|res] eqn:Hup; [done|].
  destruct (user req) as [u|] eqn:Hu; [|done]. cbn zeta.
  destruct (Schema.validate _) eqn:Hv; [|done].
  destruct (products w !! newObjectId io) eqn:Hfree; [done|]. intros _.
  apply validate_draft_iff in Hv as (Hacc & Hurl & Hpid).
  by exists f, res, u.
Qed.

(** [createProduct] answers 201 exactly when an image came with the
    request, the image store took it and named it, a user is attached, the
    body is accepted by the schema, and the new id is free. *)
Theorem create_succeeds_iff (req : Req) (io : IO) (w : World) :
  status (createProduct parseFloat req io w).1 = 201
  <-> ∃ (f : File) (res : UploadResult) (u : User.t),
        file req = Some f ∧ upload_stream io f = inr res
        ∧ secure_url res ≠ "" ∧ public_id res ≠ ""
        ∧ user req = Some u
        ∧ accepted parseFloat (body req)
        ∧ products w !! newObjectId io = None.
Proof.
  split; [apply createProduct_201_inv|].
  intros (f & res & u & Hf & Hup & Hurl & Hpid & Hu & Hacc & Hfree).
  rewrite createProduct_spec, Hf, Hup, Hu, Hfree. cbn zeta.
  assert (Hv : Schema.validate
                 (Schema.cast (draft_of parseFloat (body req) res (User._id u))) = [])
    by (by apply validate_draft_iff).
  by rewrite Hv.
Qed.

(** When the image store took the image and [createProduct] then fails,
    no record is stored and the uploaded image stays in the image store. *)
Theorem failed_create_leaves_image (req : Req) (io : IO) (w : World)
    (f : File) (res : UploadResult) :
  file req = Some f ->
  upload_stream io f = inr res ->
  status (createProduct parseFloat req io w).1 ≠ 201 ->
  (createProduct parseFloat req io w).1 = json 500 false "Server error creating product"
  ∧ products (createProduct parseFloat req io w).2 = products w
  ∧ assets (createProduct parseFloat req io w).2 = {[public_id res]} ∪ assets w.
Proof.
  intros Hf Hup. rewrite createProduct_spec, Hf, Hup.
  destruct (user req) as [u|]; [|done]. cbn zeta.
  destruct (Schema.validate _); [|done].
  destruct (products w !! newObjectId io); done.
Qed.

(** After [createProduct] answered 201, [getProduct] of the new id answers
    200 with the stored document: the title and description that were sent,
    trimmed, the category as sent, the requester as owner, the creation
    time, and the owner summary with the e-mail address. *)
Theorem create_then_get (req : Req) (io : IO) (w : World) (req' : Req) (io' : IO) :
  status (createProduct parseFloat req io w).1 = 201 ->
  castObjectId (Params.id (params req')) = Some (newObjectId io) ->
  ∃ (p : Product.t) (own : option Owner),
    getProduct castObjectId req' io' (createProduct parseFloat req io w).2
      = (json_data 200 true None (OneProduct (Some {| doc := p; owner := own |})),
         (createProduct parseFloat req io w).2)
    ∧ Some (Product.title p) = Js.trim <$> Body.title (body req)
    ∧ Some (Product.description p) = Js.trim <$> Body.description (body req)
    ∧ Some (Product.category p) = Body.category (body req)
    ∧ Some (Product.shopId p) = User._id <$> user req
    ∧ Product._id p = newObjectId io
    ∧ Product.createdAt p = now io
    ∧ own = owner_summary true <$> users w !! Product.shopId p.
Proof.
  intros H201 Hcast.
  pose proof (createProduct_201_inv req io w H201)
    as (f & res & u & Hf & Hup & _ & _ & Hu & Hacc & Hfree).
  destruct Hacc as ((t & Ht & _) & (d & Hd & _) & (c & Hc & _) & _).
  rewrite createProduct_spec, Hf, Hup, Hu in *. cbn zeta in *.
  destruct (Schema.validate _); [|done]. rewrite Hfree in *.
  eexists _, _. cbn [fst snd]. split.
  - unfold getProduct. unfold_M. rewrite Hcast. cbn.
    rewrite lookup_insert_eq. reflexivity.
  - cbn. rewrite Ht, Hd, Hc. done.
Qed.

(** *** Ids that are not stored, ids that are no ids *)

(** An id that casts but is not stored is answered 404 "Product not found"
    by [getProduct], [updateProduct] and [deleteProduct] alike, whoever
    asks and whatever comes with the request, and nothing is changed. *)
Theorem absent_product_is_404 (req : Req) (io : IO) (w : World) (oid : ObjectId) :
  castObjectId (Params.id (params req)) = Some oid ->
  products w !! oid = None ->
  getProduct castObjectId req io w = (json 404 false "Product not found", w)
  ∧ updateProduct castObjectId parseFloat req io w
    = (json 404 false "Product not found", w)
  ∧ deleteProduct castObjectId req io w = (json 404 false "Product not found", w).
Proof.
  intros Hcast Hp. split_and!.
  - unfold getProduct. unfold_M. by rewrite Hcast, Hp.
  - unfold updateProduct. unfold_M. by rewrite Hcast, Hp.
  - unfold deleteProduct. unfold_M. by rewrite Hcast, Hp.
Qed.

(** An id that does not cast to an [ObjectId] is answered 500 by the three
    handlers, each with its own "Server error" message, and nothing is
    changed: the cast error is caught by the handler. *)
Theorem malformed_id_is_500 (req : Req) (io : IO) (w : World) :
  castObjectId (Params.id (params req)) = None ->
  getProduct castObjectId req io w
    = (json 500 false "Server error fetching product", w)
  ∧ updateProduct castObjectId parseFloat req io w
    = (json 500 false "Server error updating product", w)
  ∧ deleteProduct castObjectId req io w
    = (json 500 false "Server error deleting product", w).
Proof.
  intros Hcast. split_and!.
  - unfold getProduct. unfold_M. by rewrite Hcast.
  - unfold updateProduct. unfold_M. by rewrite Hcast.
  - unfold deleteProduct. unfold_M. by rewrite Hcast.
Qed.

(** *** What a request can change *)

Lemma handlers_keep_users (r : Route) (req : Req) (io : IO) (w : World) :
  users (router castObjectId textSearch parseFloat r req io w).2 = users w.
Proof.
  destruct r; cbn [router].
  - rewrite createProduct_spec. by repeat (case_match; simplify_eq/=).
  - by rewrite getProducts_same.
  - by rewrite getProductsByCategory_same.
  - by rewrite getProduct_same.
  - unfold updateProduct. destruct (body req). unfold_M. cbn.
    by repeat (case_match; simplify_eq/=).
  - unfold deleteProduct. unfold_M. cbn. by repeat (case_match; simplify_eq/=).
Qed.

(** The three reading routes change nothing, whatever they answer. *)
Theorem reading_changes_nothing (req : Req) (io : IO) (w : World) :
  (getProducts castObjectId textSearch req io w).2 = w
  ∧ (getProductsByCategory castObjectId textSearch req io w).2 = w
  ∧ (getProduct castObjectId req io w).2 = w.
Proof.
  split_and!;
    [apply getProducts_same|apply getProductsByCategory_same|apply getProduct_same].
Qed.

(** One request never changes the user store and changes at most one
    document of the product store. *)
Theorem request_touches_one_document (x : Route * Req * IO) (w : World) :
  users (serve castObjectId textSearch parseFloat x w) = users w
  ∧ ∃ id : ObjectId, ∀ id' : ObjectId, id' ≠ id ->
      products (serve castObjectId textSearch parseFloat x w) !! id'
      = products w !! id'.
Proof.
  split.
  - destruct x as [[r req] io]. apply handlers_keep_users.
  - destruct (serve_step castObjectId textSearch parseFloat x w)
      as [|id d now _ _|id p u now _ _|id].
    + by exists "".
    + exists id. intros id' Hne. by rewrite lookup_insert_ne.
    + exists id. intros id' Hne. by rewrite lookup_insert_ne.
    + exists id. intros id' Hne. by rewrite lookup_delete_ne.
Qed.

(** A request that is answered with a client error (a status from 400 to
    499) has changed nothing: neither a record, nor a user, nor the image
    store. *)
Theorem client_error_changes_nothing (r : Route) (req : Req) (io : IO) (w : World) :
  400 <= status (router castObjectId textSearch parseFloat r req io w).1 < 500 ->
  (router castObjectId textSearch parseFloat r req io w).2 = w.
Proof.
  destruct r; cbn [router].
  - rewrite createProduct_spec.
    repeat (case_match; simplify_eq/=; try done); cbn; lia.
  - intros _. apply getProducts_same.
  - intros _. apply getProductsByCategory_same.
  - intros _. apply getProduct_same.
  - unfold updateProduct. destruct (body req). unfold_M. cbn.
    repeat (case_match; simplify_eq/=; try done); cbn; lia.
  - unfold deleteProduct. unfold_M. cbn.
    repeat (case_match; simplify_eq/=; try done); cbn; lia.
Qed.

(** [deleteProduct] answers 200 only to the owner of a stored product and
    only after the image store resolved the deletion of its image, when it
    has a deletion handle; then that record and that image are gone and
    nothing else has changed. *)
Theorem delete_success_means_removed (req : Req) (io : IO) (w : World) :
  status (deleteProduct castObjectId req io w).1 = 200 ->
  ∃ (oid : ObjectId) (p : Product.t) (u : User.t),
    castObjectId (Params.id (params req)) = Some oid
    ∧ products w !! oid = Some p
    ∧ user req = Some u
    ∧ User._id u = Product.shopId p
    ∧ (Product.imagePublicId p ≠ "" -> destroy io (Product.imagePublicId p) = None)
    ∧ products (deleteProduct castObjectId req io w).2 = delete oid (products w)
    ∧ assets (deleteProduct castObjectId req io w).2
      = (if Js.truthy (Some (Product.imagePublicId p))
         then assets w ∖ {[Product.imagePublicId p]} else assets w)
    ∧ users (deleteProduct castObjectId req io w).2 = users w.
Proof.
  unfold deleteProduct. unfold_M.
  destruct (castObjectId (Params.id (params req))) as [oid|] eqn:Hcast; [|done].
  cbn. destruct (products w !! oid) as [p|] eqn:Hp; [|done].
  destruct (user req) as [u|] eqn:Hu; [|done]. cbn.
  destruct (String.eqb_spec (toString (Product.shopId p)) (toString (User._id u)))
    as [Hown|]; [|done].
  unfold toString in Hown.
  cbn. destruct (String.eqb_spec (Product.imagePublicId p) "") as [Hpid|Hpid]; cbn.
  - intros _. exists oid, p, u. rewrite Hpid. cbn. by split_and!.
  - destruct (destroy io (Product.imagePublicId p)) eqn:Hd; [done|]. cbn.
    intros _. exists oid, p, u.
    assert (Ht : negb (String.eqb (Product.imagePublicId p) "") = true)
      by (by destruct (String.eqb_spec (Product.imagePublicId p) "")).
    rewrite Ht. by split_and!.
Qed.

(** *** Updating *)

(** For the owner of an existing product, after [updateProduct] answered
    200 every field that came with the request has its new value in the
    stored document: title and description trimmed, the category as sent,
    the price as [parseFloat] reads it, [inStock] false exactly for the
    string "false"; [updatedAt] is the time of the request, and the id, the
    owner and [createdAt] are as before. *)
Theorem update_sets_supplied_fields (req : Req) (io : IO) (w : World)
    (oid : ObjectId) (p : Product.t) (u : User.t) :
  castObjectId (Params.id (params req)) = Some oid ->
  products w !! oid = Some p ->
  user req = Some u ->
  User._id u = Product.shopId p ->
  status (updateProduct castObjectId parseFloat req io w).1 = 200 ->
  ∃ p' : Product.t,
    products (updateProduct castObjectId parseFloat req io w).2 !! oid = Some p'
    ∧ (∀ t, Body.title (body req) = Some t -> t ≠ "" -> Product.title p' = Js.trim t)
    ∧ (∀ d, Body.description (body req) = Some d -> d ≠ "" ->
            Product.description p' = Js.trim d)
    ∧ (∀ c, Body.category (body req) = Some c -> c ≠ "" -> Product.category p' = c)
    ∧ (∀ s, Body.price (body req) = Some s -> Product.price p' = Some (parseFloat s))
    ∧ (∀ s, Body.inStock (body req) = Some s ->
            Product.inStock p' = negb (String.eqb s "false"))
    ∧ Product.updatedAt p' = now io
    ∧ Product._id p' = Product._id p
    ∧ Product.shopId p' = Product.shopId p
    ∧ Product.createdAt p' = Product.createdAt p.
Proof.
  intros Hcast Hp Hu Hown H200.
  destruct (updateProduct_owner castObjectId parseFloat req io w oid p u Hcast Hp Hu Hown)
    as [[Hr Hw]|(image & own & Hv & Hr & Hw)].
  - rewrite Hr in H200. done.
  - eexists. rewrite Hw, lookup_insert_eq. split; [reflexivity|].
    cbn. split_and!; try done.
    + intros t -> Hne. cbn. by destruct (String.eqb_spec t "").
    + intros d -> Hne. cbn. by destruct (String.eqb_spec d "").
    + intros c -> Hne. cbn. by destruct (String.eqb_spec c "").
    + by intros s ->.
    + intros s ->. cbn. by destruct (String.eqb s "false").
Qed.

(** For the owner of an existing product with an image handle, after
    [updateProduct] answered 200: without a file, the image URL, the handle
    and the image store are as before; with a file, URL and handle are both
    those of the one upload, whose image is in the image store, and the old
    image is deleted from it. *)
Theorem update_replaces_image_pair (req : Req) (io : IO) (w : World)
    (oid : ObjectId) (p : Product.t) (u : User.t) :
  castObjectId (Params.id (params req)) = Some oid ->
  products w !! oid = Some p ->
  user req = Some u ->
  User._id u = Product.shopId p ->
  Product.imagePublicId p ≠ "" ->
  status (updateProduct castObjectId parseFloat req io w).1 = 200 ->
  ∃ p' : Product.t,
    products (updateProduct castObjectId parseFloat req io w).2 !! oid = Some p'
    ∧ match file req with
      | None =>
          Product.imageURL p' = Product.imageURL p
          ∧ Product.imagePublicId p' = Product.imagePublicId p
          ∧ assets (updateProduct castObjectId parseFloat req io w).2 = assets w
      | Some f =>
          ∃ res : UploadResult,
            upload_stream io f = inr res
            ∧ Product.imageURL p' = secure_url res
            ∧ Product.imagePublicId p' = public_id res
            ∧ assets (updateProduct castObjectId parseFloat req io w).2
              = {[public_id res]} ∪ (assets w ∖ {[Product.imagePublicId p]})
      end.
Proof.
  intros Hcast Hp Hu Hown Hpid.
  unfold updateProduct. unfold_M. rewrite Hcast, Hp, Hu. cbn.
  rewrite Hown, toString_eq.
  destruct (body req) as [t d c pr st]. cbn.
  destruct (String.eqb_spec (Product.imagePublicId p) ""); [done|]. cbn.
  destruct (file req) as [f|]; cbn.
  - destruct (destroy io (Product.imagePublicId p)); cbn; [done|].
    destruct (upload_stream io f) as [e|res]; cbn; [done|].
    repeat (case_match; simplify_eq/=; try done).
    all: intros _; eexists; rewrite lookup_insert_eq; split; [reflexivity|].
    all: by exists res.
  - repeat (case_match; simplify_eq/=; try done).
    all: intros _; eexists; rewrite lookup_insert_eq; split; [reflexivity|done].
Qed.

(** *** The stored documents stay within the schema *)

Lemma product_step_valid (m m' : gmap string Product.t) :
  product_step m m' -> map_Forall (fun _ p => valid_doc p) m ->
  map_Forall (fun _ p => valid_doc p) m'.
Proof.
  intros Hstep Hm. destruct Hstep as [|i d now _ Hv|i p ud now Hp Hv|i].
  - done.
  - apply map_Forall_insert_2; [|done].
    unfold Schema.validate in Hv. rewrite !app_nil in Hv.
    destruct Hv as (Ht & Hd & Hurl & Hpid & _ & Hc & Hpr).
    apply title_errors_iff in Ht as (t & Ht & Ht1 & Ht2).
    apply description_errors_iff in Hd as (d' & Hd & Hd1 & Hd2).
    apply category_errors_iff in Hc as (c & Hc & Hc1).
    rewrite price_errors_iff in Hpr.
    unfold Schema.imageURL_errors, Schema.imagePublicId_errors in *.
    destruct (Draft.imageURL (Schema.cast d)) as [url|] eqn:Eu; [|done].
    destruct (Draft.imagePublicId (Schema.cast d)) as [pid|] eqn:Ep; [|done].
    apply required_iff in Hurl, Hpid.
    unfold valid_doc, trimmed, Schema.to_document.
    cbn [Product.title Product.description Product.category Product.imageURL
         Product.imagePublicId Product.price].
    rewrite Ht, Hd, Hc, Eu, Ep. cbn [from_option id].
    split_and!; try done.
    + cbn in Ht. destruct (Draft.title d); simplify_eq/=. apply trim_idempotent.
    + cbn in Hd. destruct (Draft.description d); simplify_eq/=. apply trim_idempotent.
  - destruct (Hm _ _ Hp) as (_ & _ & _ & _ & _ & _ & Hurl & Hpid & Hprice).
    apply map_Forall_insert_2; [|done].
    unfold Schema.validate_update in Hv. rewrite !app_nil in Hv.
    destruct Hv as (Ht & Hd & Hc & Hpr & Hu & Hi).
    apply title_errors_iff in Ht as (t & Ht & Ht1 & Ht2).
    apply description_errors_iff in Hd as (d' & Hd & Hd1 & Hd2).
    apply category_errors_iff in Hc as (c & Hc & Hc1).
    rewrite price_errors_iff in Hpr.
    simplify_eq.
    unfold valid_doc, trimmed, Schema.apply_update.
    unfold Schema.cast_update in *.
    cbn [Product.title Product.description Product.category Product.imageURL
         Product.imagePublicId Product.price UpdateData.title
         UpdateData.description UpdateData.category UpdateData.price
         UpdateData.imageURL UpdateData.imagePublicId] in *.
    split_and!; try done.
    + apply trim_idempotent.
    + apply trim_idempotent.
    + destruct (UpdateData.imageURL ud); [|done].
      by apply (required_iff "imageURL" "Product image is required").
    + destruct (UpdateData.imagePublicId ud); [|done].
      by apply (required_iff "imagePublicId" "Path `imagePublicId` is required.").
    + destruct (UpdateData.price ud); [|done].
      intros n' [= <-]. by apply Hpr.
  - by apply map_Forall_delete.
Qed.

(** Serving requests keeps every stored document within the schema:
    trimmed title and description of 1 to 100 and 1 to 1000 characters, an
    enumerated category, an image URL and handle, and no negative price. *)
Theorem run_keeps_documents_valid (trace : list (Route * Req * IO)) (w : World) :
  map_Forall (fun _ p => valid_doc p) (products w) ->
  map_Forall (fun _ p => valid_doc p)
    (products (run castObjectId textSearch parseFloat trace w)).
Proof.
  revert w. induction trace as [|x trace IH]; intros w Hw; [done|].
  cbn. apply IH. eapply product_step_valid; [apply serve_step|done].
Qed.

(** *** Pages *)

Local Instance newer_first_transitive : Transitive newer_first.
Proof. intros p q r. unfold newer_first. lia. Qed.

Local Instance newer_first_total : Total newer_first.
Proof. intros p q. unfold newer_first. lia. Qed.

(** The page that [getProducts] answers is a slice of the selection. *)
Lemma getProducts_slice (req : Req) (io : IO) (w : World) :
  servable castObjectId (query req) ->
  let page := Js.num_or (Js.parseInt (Query.page (query req))) 1 in
  let lim := Js.num_or (Js.parseInt (Query.limit (query req))) 10 in
  let total := Z.of_nat (length (selection castObjectId textSearch (query req) w)) in
  0 < page ∧ 0 < lim
  ∧ ∃ views,
      getProducts castObjectId textSearch req io w
        = (json_data 200 true None
             (ProductPage views
                {| pg_page := page; pg_pages := Js.ceil_div total lim;
                   pg_total := total; pg_limit := lim |}), w)
      ∧ doc <$> views
        = take (Z.to_nat lim)
            (drop (Z.to_nat ((page - 1) * lim)) (selection castObjectId textSearch (query req) w)).
Proof.
  intros (Hpage & Hlimit & Hcast) page lim total.
  pose proof (num_or_positive _ 1 Hpage eq_refl) as Hp.
  pose proof (num_or_positive _ 10 Hlimit eq_refl) as Hl.
  fold page in Hp. fold lim in Hl. split; [done|]. split; [done|].
  set (q := query req) in *.
  set (sel := filter (fun p => in_filter castObjectId textSearch q p = true)
                (all_products w)).
  assert (Htotal : total = Z.of_nat (length sel)).
  { subst total. unfold selection. fold sel. by rewrite merge_sort_Permutation. }
  set (shown := take (Z.to_nat (Z.abs lim))
                  (drop (Z.to_nat ((page - 1) * lim)) (merge_sort newer_first sel))).
  destruct (populate_all_spec shown w) as [views [Hpop Hdocs]].
  exists views. split.
  - unfold getProducts, try_catch, find, countDocuments, skip, limit.
    fold q. fold page. fold lim.
    assert (Hskip : ((page - 1) * lim <? 0) = false) by (apply Z.ltb_ge; nia).
    assert (Hz : (lim =? 0) = false) by (apply Z.eqb_neq; lia).
    rewrite Hskip, Hz.
    assert (Hfind :
      (l ← select castObjectId textSearch
             {| f_category := if Js.truthy (Query.category q) then Query.category q else None;
                f_shopId := if Js.truthy (Query.shopId q) then Query.shopId q else None;
                f_text := if Js.truthy (Query.search q) then Query.search q else None |};
       l ← mret (drop (Z.to_nat ((page - 1) * lim)) (merge_sort newer_first l));
       populate_all (take (Z.to_nat (Z.abs lim)) l)) w = (inr views, w)).
    { rewrite (bind_ok _ _ _ _ _ (select_spec castObjectId textSearch q w Hcast)).
      fold sel. erewrite bind_ok by reflexivity. exact Hpop. }
    rewrite (bind_ok _ _ _ _ _ Hfind).
    erewrite bind_ok;
      [|by rewrite (bind_ok _ _ _ _ _ (select_spec castObjectId textSearch q w Hcast))].
    fold sel. by rewrite Htotal.
  - rewrite Hdocs. subst shown. unfold selection. fold sel.
    by rewrite Z.abs_eq by lia.
Qed.

(** For a servable query, the products of a page are in newest-first order
    ([createdAt] descending). *)
Theorem page_is_newest_first (req : Req) (io : IO) (w : World) :
  servable castObjectId (query req) ->
  StronglySorted newer_first
    (page_docs (getProducts castObjectId textSearch req io w).1).
Proof.
  intros Hq. destruct (getProducts_slice req io w Hq) as (_ & _ & views & -> & Hdocs).
  unfold page_docs. cbn. rewrite Hdocs.
  assert (Hs : StronglySorted newer_first (selection castObjectId textSearch (query req) w))
    by (unfold selection; apply StronglySorted_merge_sort; apply _).
  set (l := selection castObjectId textSearch (query req) w) in *.
  set (n := Z.to_nat ((_ - 1) * _)).
  rewrite <- (take_drop n l) in Hs. apply StronglySorted_app_1_r in Hs.
  set (l' := drop n l) in *. set (m := Z.to_nat _).
  rewrite <- (take_drop m l') in Hs. by apply StronglySorted_app_1_l in Hs.
Qed.



(** [getProductsByCategory] answers what [getProducts] answers to the same
    page and limit with that category as the only criterion: the same
    status, flag and data (the two differ in the message of a 500 only). *)
Theorem category_route_agrees (req1 req2 : Req) (io1 io2 : IO) (w : World) :
  Params.category (params req1) ≠ "" ->
  query req2
    = Query.mk (Query.page (query req1)) (Query.limit (query req1))
        (Some (Params.category (params req1))) None None ->
  let r1 := (getProductsByCategory castObjectId textSearch req1 io1 w).1 in
  let r2 := (getProducts castObjectId textSearch req2 io2 w).1 in
  status r1 = status r2 ∧ success r1 = success r2 ∧ data r1 = data r2.
Proof.
  intros Hc Hq. unfold getProductsByCategory, getProducts. rewrite Hq.
  cbn [Query.page Query.limit Query.category Query.search Query.shopId].
  assert (Ht : Js.truthy (Some (Params.category (params req1))) = true).
  { cbn. by destruct (String.eqb_spec (Params.category (params req1)) ""). }
  rewrite Ht. cbn [Js.truthy]. unfold try_catch.
  cbv zeta.
  match goal with
  | |- context [let (_, _) := ?m in _] => destruct m as [[e|r] w']
  end; done.
Qed.

End Further.

(** ** Further properties of the error middleware *)

Lemma not_duplicate_key {A} (n : Z) (a b : A) :
  n ≠ 11000 -> match n with 11000 => a | _ => b end = b.
Proof.
  intros Hn. destruct n as [|q|q]; try done.
  repeat (destruct q as [q|q|]; try done).
Qed.

(** The last step of the middleware, for a message and a status code that
    is absent, 0 or an error status. *)
Lemma errorHandler_answer (m : string) (sc : option Z) :
  (∀ n, sc = Some n -> n = 0 ∨ 400 <= n <= 599) ->
  let status := Js.num_or sc 500 in
  ((status <? 100) || (999 <? status) = false)
  ∧ 400 <= status <= 599
  ∧ (status = 500 ∨ sc = Some status)
  ∧ (if String.eqb m "" then "Server Error" else m) ≠ "".
Proof.
  intros Hsc status.
  assert (Hs : 400 <= status <= 599 ∧ (status = 500 ∨ sc = Some status)).
  { subst status. destruct sc as [n|]; cbn; [|lia].
    destruct (Hsc n eq_refl) as [->|Hn]; cbn; [lia|].
    destruct n; cbn; try lia. split; [lia|by right]. }
  destruct Hs as [Hr Hs]. split; [|split; [exact Hr|split; [exact Hs|]]].
  - apply orb_false_intro; [apply Z.ltb_ge|apply Z.ltb_ge]; lia.
  - by destruct (String.eqb_spec m "").
Qed.

(** For an error that names a key when it is a duplicate-key error (code
    11000), that carries [errors] when it is named [ValidationError], and
    whose own [statusCode], if it has one, is 0 or an error status (400 to
    599), the middleware does not throw: it answers a failure envelope
    without data, with a message that is not empty and an error status,
    which is 400, 404, 500 or the error's own [statusCode]. *)
Theorem errorHandler_envelope (err : JsError) :
  (code err = NumCode 11000 ->
     ∃ field value rest, keyValue err = Some ((field, value) :: rest)) ->
  (name err = "ValidationError" -> is_Some (errors err)) ->
  (∀ n, statusCode err = Some n -> n = 0 ∨ 400 <= n <= 599) ->
  ∃ r : Response,
    errorHandler err = inr r
    ∧ success r = false ∧ data r = NoData
    ∧ (∃ m, res_message r = Some m ∧ m ≠ "")
    ∧ 400 <= status r <= 599
    ∧ (status r = 400 ∨ status r = 404 ∨ status r = 500
       ∨ statusCode err = Some (status r)).
Proof.
  intros Hkey Herrs Hstatus.
  assert (Hfixed : ∀ k, k = 400 ∨ k = 404 ->
            ∀ n, Some k = Some n -> n = 0 ∨ 400 <= n <= 599)
    by (intros k Hk n [= <-]; lia).
  assert (Hlast : ∀ (m : string) (sc : option Z),
            (sc = Some 400 ∨ sc = Some 404 ∨ sc = statusCode err) ->
            ∃ r : Response,
              (let status := Js.num_or sc 500 in
               if (status <? 100) || (999 <? status)
               then inl (InvalidStatusCode status)
               else inr (json status false
                           (if String.eqb m "" then "Server Error" else m)))
              = inr r
              ∧ success r = false ∧ data r = NoData
              ∧ (∃ m, res_message r = Some m ∧ m ≠ "")
              ∧ 400 <= status r <= 599
              ∧ (status r = 400 ∨ status r = 404 ∨ status r = 500
                 ∨ statusCode err = Some (status r))).
  { intros m sc Hsc.
    assert (Hn : ∀ n, sc = Some n -> n = 0 ∨ 400 <= n <= 599).
    { destruct Hsc as [ -> | [ -> | -> ] ];
        [apply (Hfixed 400); by left|apply (Hfixed 404); by right|exact Hstatus]. }
    destruct (errorHandler_answer m sc Hn) as (Hok & Hrange & Hval & Hmsg).
    cbn zeta in *. rewrite Hok. eexists. split; [reflexivity|]. cbn.
    split; [done|]. split; [done|]. split; [by eexists|]. split; [exact Hrange|].
    destruct Hval as [Hval|Hval]; [auto|].
    destruct Hsc as [ -> | [ -> | -> ] ]; cbn; auto. }
  assert (Hmulter : ∀ error : string * option Z,
            (error.2 = Some 400 ∨ error.2 = Some 404 ∨ error.2 = statusCode err) ->
            let error' :=
              if isMulterError err then
                match code err with
                | StrCode "LIMIT_FILE_SIZE" =>
                    ("File too large. Maximum size is 5MB", Some 400)
                | _ => ("File upload error", Some 400)
                end
              else error in
            error'.2 = Some 400 ∨ error'.2 = Some 404 ∨ error'.2 = statusCode err).
  { intros error Herror. cbn zeta.
    destruct (isMulterError err); [|exact Herror]. left. by repeat case_match. }
  assert (Hrest : ∀ error : string * option Z,
            (error.2 = Some 400 ∨ error.2 = Some 404 ∨ error.2 = statusCode err) ->
            ∃ r : Response,
              match
                (if String.eqb (name err) "ValidationError"
                 then match errors err with
                      | Some errs => inr (Js.join ", " errs.*2, Some 400)
                      | None =>
                          inl (TypeError "Cannot convert undefined or null to object")
                      end
                 else inr error)
              with
              | inl e => inl e
              | inr error =>
                  let error :=
                    if isMulterError err then
                      match code err with
                      | StrCode "LIMIT_FILE_SIZE" =>
                          ("File too large. Maximum size is 5MB", Some 400)
                      | _ => ("File upload error", Some 400)
                      end
                    else error in
                  let status := Js.num_or error.2 500 in
                  if (status <? 100) || (999 <? status)
                  then inl (InvalidStatusCode status)
                  else inr (json status false
                              (if String.eqb error.1 "" then "Server Error" else error.1))
              end = inr r
              ∧ success r = false ∧ data r = NoData
              ∧ (∃ m, res_message r = Some m ∧ m ≠ "")
              ∧ 400 <= status r <= 599
              ∧ (status r = 400 ∨ status r = 404 ∨ status r = 500
                 ∨ statusCode err = Some (status r))).
  { intros error Herror.
    destruct (String.eqb_spec (name err) "ValidationError") as [Hname|_].
    - destruct (Herrs Hname) as [errs ->].
      apply (Hlast _ _ (Hmulter (Js.join ", " errs.*2, Some 400) (or_introl eq_refl))).
    - apply (Hlast _ _ (Hmulter error Herror)). }
  unfold errorHandler.
  set (base := if String.eqb (name err) "CastError"
               then ("Resource not found", Some 404)
               else (message err, statusCode err)).
  assert (Hbase : base.2 = Some 400 ∨ base.2 = Some 404 ∨ base.2 = statusCode err)
    by (subst base; destruct (String.eqb (name err) "CastError"); auto).
  destruct (code err) as [|n|c] eqn:Hcode.
  - by apply Hrest.
  - destruct (decide (n = 11000)) as [->|Hn].
    + destruct (Hkey eq_refl) as (field & value & rest & ->).
      apply Hrest. by left.
    + rewrite (not_duplicate_key n _ (inr base) Hn). by apply Hrest.
  - by apply Hrest.
Qed.

(** ** Properties of the page script *)

Lemma signed_in_requests (st : Client.State) (button modal welcome : string)
    (answer : string + Client.Json) :
  Client.requests (Client.signed_in st button modal welcome answer).2 = []
  ∧ last (Client.signed_in st button modal welcome answer).2
    = Some (Client.setButtonLoading button false)
  ∧ ((Client.signed_in st button modal welcome answer).1 = st
     ∨ ∃ j d, answer = inr j ∧ Client.j_data j = Some d
              ∧ (Client.signed_in st button modal welcome answer).1
                = {| Client.currentUser := Client.user d;
                     Client.currentToken := Client.read_token (Client.token d);
                     Client.localStorage :=
                       Some (Client.token_string (Client.read_token (Client.token d))) |}).
Proof.
  unfold Client.signed_in. destruct answer as [m|j]; [by auto|].
  destruct (Client.j_data j) as [d|] eqn:Hd; [|by auto].
  split_and!; [done|done|]. right. by exists j, d.
Qed.

(** The requests of the two credential forms are made by [apiCall]. *)
Lemma credential_requests_headers (server : Client.Request -> Client.FetchResult)
    (st : Client.State) (a b c d : string) :
  Forall (fun r => Client.headers r = Client.api_headers st)
    (Client.requests (Client.handleLogin a b server st).2)
  ∧ Forall (fun r => Client.headers r = Client.api_headers st)
      (Client.requests (Client.handleRegister a b c d server st).2).
Proof.
  split.
  - unfold Client.handleLogin, Js.truthy.
    destruct (String.eqb (Js.trim a) ""), (String.eqb b "");
      cbn [negb andb orb snd Client.requests];
      try (apply Forall_nil_2).
    unfold Client.apiCall.
    match goal with
    | |- context [Client.signed_in ?a ?b ?c ?d ?e] =>
        pose proof (signed_in_requests a b c d e) as [Hreq _];
        destruct (Client.signed_in a b c d e) as [st' eff]
    end.
    cbn [snd Client.requests] in *. rewrite Hreq.
    apply Forall_cons_2; [reflexivity|apply Forall_nil_2].
  - unfold Client.handleRegister, Js.truthy.
    destruct (String.eqb (Js.trim a) ""), (String.eqb (Js.trim b) ""),
      (String.eqb c ""); cbn [negb andb orb snd Client.requests];
      try (apply Forall_nil_2).
    destruct (String.length c <? 6)%nat;
      [cbn [snd Client.requests]; apply Forall_nil_2|].
    unfold Client.apiCall.
    match goal with
    | |- context [Client.signed_in ?a ?b ?c ?d ?e] =>
        pose proof (signed_in_requests a b c d e) as [Hreq _];
        destruct (Client.signed_in a b c d e) as [st' eff]
    end.
    cbn [snd Client.requests] in *. rewrite Hreq.
    apply Forall_cons_2; [reflexivity|apply Forall_nil_2].
Qed.

(** The login form sends its one request, with the trimmed e-mail address
    and the password, exactly when both are filled in; the registration
    form exactly when user name, e-mail address and password are filled in
    and the password has at least 6 characters.  Otherwise no request is
    made, the state is as before and a message is shown. *)
Theorem credential_forms_gate (server : Client.Request -> Client.FetchResult)
    (st : Client.State) (email password username shopName : string) :
  (if String.eqb (Js.trim email) "" || String.eqb password ""
   then Client.handleLogin email password server st
        = (st, [Client.preventDefault;
                Client.showMessage "Please fill in all required fields" "error"])
   else Client.requests (Client.handleLogin email password server st).2
        = [login_request st (Js.trim email) password])
  ∧ (if String.eqb (Js.trim username) "" || String.eqb (Js.trim email) ""
        || String.eqb password ""
     then Client.handleRegister username email password shopName server st
          = (st, [Client.preventDefault;
                  Client.showMessage "Please fill in all required fields" "error"])
     else if (String.length password <? 6)%nat
     then Client.handleRegister username email password shopName server st
          = (st, [Client.preventDefault;
                  Client.showMessage "Password must be at least 6 characters long"
                    "error"])
     else Client.requests
            (Client.handleRegister username email password shopName server st).2
          = [register_request st (Js.trim username) (Js.trim email) password
               (Js.trim shopName)]).
Proof.
  split.
  - unfold Client.handleLogin, Js.truthy.
    destruct (String.eqb (Js.trim email) ""), (String.eqb password "");
      cbn [negb andb orb]; try reflexivity.
    unfold Client.apiCall.
    match goal with
    | |- context [Client.signed_in ?a ?b ?c ?d ?e] =>
        pose proof (signed_in_requests a b c d e) as [Hreq _];
        destruct (Client.signed_in a b c d e) as [st' eff]
    end.
    cbn [snd Client.requests] in *. by rewrite Hreq.
  - unfold Client.handleRegister, Js.truthy.
    destruct (String.eqb (Js.trim username) ""), (String.eqb (Js.trim email) ""),
      (String.eqb password ""); cbn [negb andb orb]; try reflexivity.
    destruct (String.length password <? 6)%nat; [reflexivity|].
    unfold Client.apiCall.
    match goal with
    | |- context [Client.signed_in ?a ?b ?c ?d ?e] =>
        pose proof (signed_in_requests a b c d e) as [Hreq _];
        destruct (Client.signed_in a b c d e) as [st' eff]
    end.
    cbn [snd Client.requests] in *. by rewrite Hreq.
Qed.

Lemma last_cons_Some {A} (x y : A) (l : list A) :
  last l = Some y -> last (x :: l) = Some y.
Proof. destruct l; [done|]. by intros <-. Qed.

(** After the login form or the registration form was handled, the state
    is as before, or the server answered the request with an ok response
    carrying data, and user and token are those of the response, the token
    being stored as well.  Whenever a request was made, the last thing done
    is to take the submit button out of its loading state. *)
Theorem sign_in_outcome (server : Client.Request -> Client.FetchResult)
    (st : Client.State) (email password username shopName : string) :
  let r1 := Client.handleLogin email password server st in
  let r2 := Client.handleRegister username email password shopName server st in
  (r1.1 = st
   ∨ ∃ j d, server (login_request st (Js.trim email) password)
              = Client.Resolved true (inr j)
            ∧ Client.j_data j = Some d
            ∧ r1.1 = {| Client.currentUser := Client.user d;
                        Client.currentToken := Client.read_token (Client.token d);
                        Client.localStorage :=
                          Some (Client.token_string (Client.read_token (Client.token d))) |})
  ∧ (Client.requests r1.2 = []
     ∨ last r1.2 = Some (Client.setButtonLoading "loginSubmitBtn" false))
  ∧ (r2.1 = st
     ∨ ∃ j d, server (register_request st (Js.trim username) (Js.trim email) password
                        (Js.trim shopName))
                = Client.Resolved true (inr j)
              ∧ Client.j_data j = Some d
              ∧ r2.1 = {| Client.currentUser := Client.user d;
                          Client.currentToken := Client.read_token (Client.token d);
                          Client.localStorage :=
                            Some (Client.token_string (Client.read_token (Client.token d))) |})
  ∧ (Client.requests r2.2 = []
     ∨ last r2.2 = Some (Client.setButtonLoading "registerSubmitBtn" false)).
Proof.
  cbv zeta.
  assert (Hanswer : ∀ (request : Client.Request) (j : Client.Json),
            match server request with
            | Client.Rejected message => inl message
            | Client.Resolved ok (inl message) => inl message
            | Client.Resolved ok (inr data) =>
                if ok then inr data
                else inl (Js.or_else (Client.j_message data) "Something went wrong")
            end = inr j -> server request = Client.Resolved true (inr j)).
  { intros request j. destruct (server request) as [m|[] [m|j']]; naive_solver. }
  assert (Hlogin :
    let r1 := Client.handleLogin email password server st in
    (r1.1 = st
     ∨ ∃ j d, server (login_request st (Js.trim email) password)
                = Client.Resolved true (inr j)
              ∧ Client.j_data j = Some d
              ∧ r1.1 = {| Client.currentUser := Client.user d;
                          Client.currentToken := Client.read_token (Client.token d);
                          Client.localStorage :=
                            Some (Client.token_string (Client.read_token (Client.token d))) |})
    ∧ (Client.requests r1.2 = []
       ∨ last r1.2 = Some (Client.setButtonLoading "loginSubmitBtn" false))).
  { cbv zeta. unfold Client.handleLogin.
    destruct (negb _); [by auto|]. unfold Client.apiCall.
    match goal with
    | |- context [Client.signed_in ?a ?b ?c ?d ?e] =>
        pose proof (signed_in_requests a b c d e) as (_ & Hlast & Hst);
        destruct (Client.signed_in a b c d e) as [st' eff]
    end.
    cbn [fst snd] in *. split.
    - destruct Hst as [->|(j & d & Hj & Hd & ->)]; [by left|].
      right. exists j, d. split; [|done]. by apply Hanswer in Hj.
    - right. by do 3 apply last_cons_Some. }
  assert (Hregister :
    let r2 := Client.handleRegister username email password shopName server st in
    (r2.1 = st
     ∨ ∃ j d, server (register_request st (Js.trim username) (Js.trim email) password
                        (Js.trim shopName))
                = Client.Resolved true (inr j)
              ∧ Client.j_data j = Some d
              ∧ r2.1 = {| Client.currentUser := Client.user d;
                          Client.currentToken := Client.read_token (Client.token d);
                          Client.localStorage :=
                            Some (Client.token_string (Client.read_token (Client.token d))) |})
    ∧ (Client.requests r2.2 = []
       ∨ last r2.2 = Some (Client.setButtonLoading "registerSubmitBtn" false))).
  { cbv zeta. unfold Client.handleRegister.
    destruct (negb _); [by auto|].
    destruct (String.length password <? 6)%nat; [by auto|]. unfold Client.apiCall.
    match goal with
    | |- context [Client.signed_in ?a ?b ?c ?d ?e] =>
        pose proof (signed_in_requests a b c d e) as (_ & Hlast & Hst);
        destruct (Client.signed_in a b c d e) as [st' eff]
    end.
    cbn [fst snd] in *. split.
    - destruct Hst as [->|(j & d & Hj & Hd & ->)]; [by left|].
      right. exists j, d. split; [|done]. by apply Hanswer in Hj.
    - right. by do 3 apply last_cons_Some. }
  cbv zeta in Hlogin, Hregister. destruct Hlogin, Hregister. done.
Qed.

Lemma requests_app (l1 l2 : list Client.Effect) :
  Client.requests (l1 ++ l2) = Client.requests l1 ++ Client.requests l2.
Proof.
  induction l1 as [|e l1 IH]; [done|]. destruct e; cbn; by rewrite ?IH.
Qed.

Lemma final_loading_app (l1 l2 : list Client.Effect) (current : option string) :
  final_loading (l1 ++ l2) current = final_loading l2 (final_loading l1 current).
Proof.
  revert current. induction l1 as [|e l1 IH]; intros current; [done|].
  destruct e; cbn; by rewrite IH.
Qed.

(** The cards of a listing make no request and do not touch the loading
    indicator. *)
Lemma render_quiet (st : Client.State) (l : list Client.ProductJson)
    (current : option string) :
  Client.requests (Client.render st l).1 = []
  ∧ final_loading (Client.render st l).1 current = current.
Proof.
  induction l as [|p l [IH1 IH2]]; [done|]. cbn.
  destruct (Client.createProductCard st p); [done|].
  by destruct (Client.render st l).
Qed.

(** The one request of [loadProducts]. *)
Lemma loadProducts_requests (server : Client.Request -> Client.FetchResult)
    (st : Client.State) (category search : string) :
  Client.requests (Client.loadProducts category search server st)
  = [listing_request st category search].
Proof.
  unfold Client.loadProducts, Client.apiCall, Js.truthy.
  assert (Hreq : {| Client.url := Client.API_BASE +:+ "/products?";
                    Client.search :=
                      (if negb (String.eqb category "") then [("category", category)] else [])
                      ++ (if negb (String.eqb search "") then [("search", search)] else []);
                    Client.method := None; Client.headers := Client.api_headers st;
                    Client.payload := Client.NoBody |}
                 = listing_request st category search).
  { unfold listing_request.
    by destruct (String.eqb category ""), (String.eqb search ""). }
  rewrite Hreq. set (request := listing_request st category search).
  cbn [Client.requests].
  destruct (server request) as [m|ok [m|j]]; [done|done|].
  destruct ok; [|done].
  destruct (Client.j_data j) as [d|]; [|done].
  destruct (Client.products d) as [[|p l]|]; [done| |done].
  pose proof (render_quiet st (p :: l) None) as [Hr1 _].
  destruct (Client.render st (p :: l)) as [cards error].
  cbn [fst] in Hr1. cbn [Client.requests].
  rewrite requests_app, Hr1. by destruct error.
Qed.

(** [loadProducts] makes one request, for the criteria that are not empty,
    and whatever the answer, the loading indicator is hidden in the end. *)
Theorem listing_request_and_indicator (server : Client.Request -> Client.FetchResult)
    (st : Client.State) (category search : string) :
  Client.requests (Client.loadProducts category search server st)
    = [listing_request st category search]
  ∧ final_loading (Client.loadProducts category search server st) None = Some "none".
Proof.
  split; [apply loadProducts_requests|].
  unfold Client.loadProducts, Client.apiCall.
  set (request := {| Client.url := _ |}). cbn [final_loading].
  destruct (server request) as [m|ok [m|j]]; [done|done|].
  destruct ok; [|done].
  destruct (Client.j_data j) as [d|]; [|done].
  destruct (Client.products d) as [[|p l]|]; [done| |done].
  pose proof (render_quiet st (p :: l) (Some "none")) as [_ Hr2].
  destruct (Client.render st (p :: l)) as [cards error].
  cbn [fst] in Hr2. cbn [final_loading].
  rewrite final_loading_app, Hr2. by destruct error.
Qed.

(** Every request that the handlers make through [apiCall] (login,
    registration, session restore, listing, delete) has the JSON content
    type and carries the [Authorization] header with the current token
    exactly when there is a token that is not empty. *)
Theorem requests_carry_session (server : Client.Request -> Client.FetchResult)
    (st : Client.State) (a b c d : string) (confirmed : bool) :
  Client.api_headers st
    = ("Content-Type", "application/json")
      :: match Client.currentToken st with
         | Client.token_of t =>
             if String.eqb t "" then [] else [("Authorization", "Bearer " +:+ t)]
         | _ => []
         end
  ∧ Forall (fun r => Client.headers r = Client.api_headers st)
      (Client.requests (Client.handleLogin a b server st).2
       ++ Client.requests (Client.handleRegister a b c d server st).2
       ++ Client.requests (Client.getCurrentUser server st).2
       ++ Client.requests (Client.loadProducts a b server st)
       ++ Client.requests (Client.deleteProduct a confirmed server st)).
Proof.
  split.
  { unfold Client.api_headers, Client.token_truthy.
    destruct (Client.currentToken st) as [| |t]; try done. by destruct (String.eqb t ""). }
  rewrite !Forall_app. split_and!.
  - apply (credential_requests_headers server st a b c d).
  - apply (credential_requests_headers server st a b c d).
  - unfold Client.getCurrentUser, Client.apiCall, Client.logout.
    repeat case_match; simplify_eq/=; by repeat first [apply Forall_nil_2 | apply Forall_cons_2; [reflexivity|]].
  - rewrite (loadProducts_requests server st a b).
    by repeat first [apply Forall_nil_2 | apply Forall_cons_2; [reflexivity|]].
  - unfold Client.deleteProduct, Client.apiCall.
    destruct confirmed; cbn; [|apply Forall_nil_2].
    repeat case_match; by repeat first [apply Forall_nil_2 | apply Forall_cons_2; [reflexivity|]].
Qed.

(** Once the login form was answered with an ok response whose data holds
    a token that is not empty, the token is the current one and is stored,
    and [apiCall] sends it as bearer; after a [logout] the stored token is
    removed and [apiCall] sends no [Authorization] header. *)
Theorem session_token_is_sent (server : Client.Request -> Client.FetchResult)
    (st : Client.State) (email password : string) (j : Client.Json)
    (d : Client.Data) (t : string) :
  Js.trim email ≠ "" ->
  password ≠ "" ->
  server (login_request st (Js.trim email) password) = Client.Resolved true (inr j) ->
  Client.j_data j = Some d ->
  Client.token d = Some t ->
  t ≠ "" ->
  let st' := (Client.handleLogin email password server st).1 in
  Client.currentToken st' = Client.token_of t
  ∧ Client.currentUser st' = Client.user d
  ∧ Client.localStorage st' = Some t
  ∧ Client.api_headers st'
    = [("Content-Type", "application/json"); ("Authorization", "Bearer " +:+ t)]
  ∧ Client.localStorage (Client.logout st').1 = None
  ∧ Client.api_headers (Client.logout st').1 = [("Content-Type", "application/json")].
Proof.
  intros He Hp Hs Hd Ht Hne. unfold Client.handleLogin, Js.truthy.
  destruct (String.eqb_spec (Js.trim email) ""); [done|].
  destruct (String.eqb_spec password ""); [done|]. cbn [negb andb].
  unfold Client.apiCall.
  assert (Hreq : {| Client.url := Client.API_BASE +:+ "/auth/login";
                    Client.search := []; Client.method := Some "POST";
                    Client.headers := Client.api_headers st;
                    Client.payload :=
                      Client.JsonBody [("email", Js.trim email); ("password", password)] |}
                 = login_request st (Js.trim email) password) by reflexivity.
  rewrite Hreq, Hs. unfold Client.signed_in. rewrite Hd, Ht. cbn.
  unfold Client.api_headers. cbn. by destruct (String.eqb_spec t "").
Qed.

(** The product form sends its one request exactly when title and
    description are not blank, a category is chosen, and a file of an
    [image/] type of at most 5 MB is selected; the request then is a POST
    of the five form entries [title], [description], [category], [price]
    and [image], texts trimmed, with the token as bearer.  Otherwise no
    request is made.  The state is never changed. *)
Theorem product_form_gate (server : Client.Request -> Client.FetchResult)
    (st : Client.State) (title description category price : string)
    (image : option Client.FileInfo) :
  (Client.handleAddProduct title description category price image server st).1 = st
  ∧ Client.requests
      (Client.handleAddProduct title description category price image server st).2
    = match image with
      | Some file =>
          if negb (String.eqb (Js.trim title) "")
             && negb (String.eqb (Js.trim description) "")
             && negb (String.eqb category "")
             && String.prefix "image/" (Client.f_type file)
             && (Client.f_size file <=? 5242880)
          then [product_request st (Js.trim title) (Js.trim description) category
                  price file]
          else []
      | None => []
      end.
Proof.
  unfold Client.handleAddProduct, Js.truthy.
  destruct image as [file|]; [|done].
  destruct (negb (String.eqb (Js.trim title) "")),
    (negb (String.eqb (Js.trim description) "")),
    (negb (String.eqb category "")); cbn [negb andb]; try done.
  destruct (String.prefix "image/" (Client.f_type file)); cbn [negb andb]; [|done].
  change (5 * 1024 * 1024) with 5242880.
  destruct (Z.ltb_spec 5242880 (Client.f_size file)),
    (Z.leb_spec (Client.f_size file) 5242880); try lia; [done|].
  split; [done|]. cbn [snd Client.requests]. rewrite requests_app.
  assert (Hq : ∀ answer : string + Client.Json,
            Client.requests
              match answer with
              | inl message => [Client.showMessage message "error"]
              | inr _ => [Client.closeModal "productModal";
                          Client.showMessage "Product added successfully!" "success";
                          Client.call_loadProducts]
              end = []) by (by intros [|]).
  by rewrite Hq.
Qed.

(** When every product of a listing has an owner, one card is appended per
    product, in the order of the listing, with the product's title and the
    shop name (or the owner's user name when the shop has none); a card has
    the delete button exactly when a user is logged in whose id is the
    owner's. *)
Theorem cards_of_listing (st : Client.State) (l : list Client.ProductJson) :
  Forall has_owner l ->
  ∃ cards : list Client.Card,
    Client.render st l = (Client.appendCard <$> cards, None)
    ∧ Forall2
        (fun p c =>
           Client.c_title c = Client.p_title p
           ∧ (∀ shop, Client.p_shopId p = Some shop ->
                Client.c_shop c
                = Js.or_else (Client.s_shopName shop) (Client.s_username shop)
                ∧ (Client.c_delete c = Some (Client.p_id p)
                   <-> ∃ u, Client.currentUser st = Some u
                            ∧ Client.s_id shop = Client._id u)
                ∧ (Client.c_delete c = None ∨ Client.c_delete c = Some (Client.p_id p))))
        l cards.
Proof.
  induction 1 as [|p l [shop Hp] _ (cards & Hr & Hc)]; [by exists []|].
  cbn. unfold Client.createProductCard. rewrite Hp, Hr.
  eexists (_ :: cards). split; [reflexivity|]. constructor; [|exact Hc].
  cbn. split; [done|]. intros shop' Hs'. rewrite Hp in Hs'. injection Hs' as <-.
  split; [done|].
  destruct (Client.currentUser st) as [u|].
  - destruct (String.eqb_spec (Client.s_id shop) (Client._id u)); cbn.
    + split; [|by right]. split; [|done]. intros _. by exists u.
    + split; [|by left]. split; [done|]. intros (u' & [= <-] & ?). done.
  - split; [|by left]. split; [done|]. by intros (u' & ? & _).
Qed.

(** A product without owner stops the rendering of a listing: the cards of
    the products before it are appended, none after it, and the error is
    reported. *)
Theorem ownerless_product_stops_listing (st : Client.State)
    (before after : list Client.ProductJson) (p : Client.ProductJson) :
  Forall has_owner before ->
  Client.p_shopId p = None ->
  ∃ (cards : list Client.Card) (message : string),
    Client.render st (before ++ p :: after) = (Client.appendCard <$> cards, Some message)
    ∧ length cards = length before.
Proof.
  intros Hb Hp. induction Hb as [|q l [shop Hq] _ (cards & message & Hr & Hlen)].
  - exists [], (Client.cannot_read "null"
                  (match Client.currentUser st with
                   | Some _ => "_id" | None => "shopName" end)).
    cbn. unfold Client.createProductCard. by rewrite Hp.
  - cbn. unfold Client.createProductCard at 1. rewrite Hq, Hr.
    eexists (_ :: cards), message. split; [reflexivity|]. cbn. by rewrite Hlen.
Qed.

(** After a session restore the state is logged out (user, token and
    stored token cleared), or the server answered ok with data and only the
    user changed, to the one of the response. *)
Theorem session_restore_outcome (server : Client.Request -> Client.FetchResult)
    (st : Client.State) :
  (Client.getCurrentUser server st).1
    = {| Client.currentUser := None; Client.currentToken := Client.null;
         Client.localStorage := None |}
  ∨ ∃ j d,
      server {| Client.url := "http://localhost:4000/api/auth/me"; Client.search := [];
                Client.method := None; Client.headers := Client.api_headers st;
                Client.payload := Client.NoBody |}
        = Client.Resolved true (inr j)
      ∧ Client.j_data j = Some d
      ∧ (Client.getCurrentUser server st).1
        = {| Client.currentUser := Client.user d;
             Client.currentToken := Client.currentToken st;
             Client.localStorage := Client.localStorage st |}.
Proof.
  unfold Client.getCurrentUser, Client.apiCall.
  change (Client.API_BASE +:+ "/auth/me") with "http://localhost:4000/api/auth/me".
  destruct (server _) as [m|ok [m|j]] eqn:Hs; [by left|by left|].
  destruct ok; [|by left].
  destruct j as [msg [d|]]; [|by left].
  right. by exists {| Client.j_message := msg; Client.j_data := Some d |}, d.
Qed.

(** ** The further properties on the catalogs *)

(** Alice creates a product with a title of 101 characters. *)
Lemma failed_create_leaves_image_witness :
  let req := request "" (Some alice)
               (Body.mk (Some long_title) (Some "A lamp") (Some "Books") None None)
               (Some photo) in
  (createProduct parseFloat req io_ok world).1
    = json 500 false "Server error creating product"
  ∧ products (createProduct parseFloat req io_ok world).2 = products world
  ∧ assets (createProduct parseFloat req io_ok world).2
    = {[public_id uploaded]} ∪ assets world.
Proof.
  intros req.
  apply (failed_create_leaves_image parseFloat req io_ok world photo uploaded);
    [reflexivity|reflexivity|vm_compute; discriminate].
Defined.

(** Alice creates the lamp in the empty catalog; a visitor asks for it. *)
Lemma create_then_get_witness :
  let req := request "" (Some alice) lamp_form (Some photo) in
  let req' := request "64b0f1a2c3d4e5f6a7b8c9a2" None no_body None in
  ∃ (p : Product.t) (own : option Owner),
    getProduct castObjectId req' io_ok (createProduct parseFloat req io_ok empty_world).2
      = (json_data 200 true None (OneProduct (Some {| doc := p; owner := own |})),
         (createProduct parseFloat req io_ok empty_world).2)
    ∧ Some (Product.title p) = Some "Desk lamp"
    ∧ Some (Product.shopId p) = Some (User._id alice).
Proof.
  intros req req'.
  destruct (create_then_get castObjectId parseFloat req io_ok empty_world req' io_ok)
    as (p & own & Hget & Ht & _ & _ & Hs & _);
    [vm_compute; reflexivity|vm_compute; reflexivity|].
  exists p, own. split_and!; [exact Hget|exact Ht|exact Hs].
Defined.

(** Somebody asks for, updates and deletes a product that is not stored. *)
Lemma absent_product_is_404_witness :
  let req := request Sample.absent_id (Some alice) lamp_form (Some photo) in
  getProduct castObjectId req io_ok world = (json 404 false "Product not found", world)
  ∧ updateProduct castObjectId parseFloat req io_ok world
    = (json 404 false "Product not found", world)
  ∧ deleteProduct castObjectId req io_ok world
    = (json 404 false "Product not found", world).
Proof.
  intros req.
  apply (absent_product_is_404 castObjectId parseFloat req io_ok world Sample.absent_id);
    vm_compute; reflexivity.
Defined.

(** The id [lamp] is no [ObjectId]. *)
Lemma malformed_id_is_500_witness :
  let req := request "lamp" (Some alice) lamp_form None in
  getProduct castObjectId req io_ok world
    = (json 500 false "Server error fetching product", world)
  ∧ updateProduct castObjectId parseFloat req io_ok world
    = (json 500 false "Server error updating product", world)
  ∧ deleteProduct castObjectId req io_ok world
    = (json 500 false "Server error deleting product", world).
Proof.
  intros req.
  apply (malformed_id_is_500 castObjectId parseFloat req io_ok world).
  vm_compute. reflexivity.
Defined.

(** A create without an image is answered 400. *)
Lemma client_error_changes_nothing_witness :
  let req := request "" (Some alice) lamp_form None in
  status (createProduct parseFloat req io_ok world).1 = 400
  ∧ (createProduct parseFloat req io_ok world).2 = world.
Proof.
  intros req. split; [vm_compute; reflexivity|].
  apply (client_error_changes_nothing castObjectId textSearch parseFloat
           POST_products req io_ok world).
  vm_compute. split; [discriminate|reflexivity].
Defined.

(** Alice deletes her lamp. *)
Lemma delete_success_means_removed_witness :
  let req := request lamp_id (Some alice) no_body None in
  let after := (deleteProduct castObjectId req io_ok world).2 in
  status (deleteProduct castObjectId req io_ok world).1 = 200
  ∧ products after = delete lamp_id (products world)
  ∧ assets after = assets world ∖ {[Product.imagePublicId lamp]}
  ∧ users after = users world.
Proof.
  intros req after.
  assert (Hs : status (deleteProduct castObjectId req io_ok world).1 = 200)
    by (vm_compute; reflexivity).
  split; [exact Hs|].
  destruct (delete_success_means_removed castObjectId req io_ok world Hs)
    as (oid & p & u & Hcast & Hp & _ & _ & _ & Hproducts & Hassets & Husers).
  assert (Hoid : Some oid = Some lamp_id)
    by (rewrite <- Hcast; vm_compute; reflexivity).
  injection Hoid as ->.
  assert (Hl : Some p = Some lamp) by (rewrite <- Hp; vm_compute; reflexivity).
  injection Hl as ->.
  split; [exact Hproducts|]. split; [exact Hassets|exact Husers].
Defined.

(** A second account on the e-mail address of Alice, and an error that
    carries the status 503. *)
Lemma errorHandler_envelope_witness :
  errorHandler duplicate_email = inr (json 400 false "Email already exists")
  ∧ errorHandler busy = inr (json 503 false "Service busy").
Proof.
  split.
  - destruct (errorHandler_envelope duplicate_email) as (r & Hr & _).
    + intros _. by eexists _, _, _.
    + intros Hn. discriminate Hn.
    + intros n Hn. discriminate Hn.
    + rewrite Hr. vm_compute in Hr. by injection Hr as <-.
  - destruct (errorHandler_envelope busy) as (r & Hr & _).
    + intros Hc. discriminate Hc.
    + intros Hn. discriminate Hn.
    + intros n Hn. injection Hn as <-. right. lia.
    + rewrite Hr. vm_compute in Hr. by injection Hr as <-.
Defined.

(** Alice sends a new title, a new price and [inStock=false]. *)
Lemma update_sets_supplied_fields_witness :
  let req := request lamp_id (Some alice)
               (Body.mk (Some "  Reading lamp ") None None (Some "30") (Some "false"))
               None in
  ∃ p' : Product.t,
    products (updateProduct castObjectId parseFloat req io_ok world).2 !! lamp_id = Some p'
    ∧ Product.title p' = "Reading lamp"
    ∧ Product.inStock p' = false
    ∧ Product.updatedAt p' = 2000.
Proof.
  intros req.
  destruct (update_sets_supplied_fields castObjectId parseFloat req io_ok world
              lamp_id lamp alice)
    as (p' & Hp' & Ht & _ & _ & _ & Hs & Hu & _);
    [reflexivity|reflexivity|reflexivity|reflexivity|vm_compute; reflexivity|].
  exists p'. split_and!; [exact Hp'| |exact (Hs "false" eq_refl)|exact Hu].
  apply (Ht "  Reading lamp " eq_refl). discriminate.
Defined.

(** Alice replaces the image of her lamp. *)
Lemma update_replaces_image_pair_witness :
  let req := request lamp_id (Some alice) no_body (Some photo) in
  ∃ p' : Product.t,
    products (updateProduct castObjectId parseFloat req io_ok world).2 !! lamp_id = Some p'
    ∧ Product.imageURL p' = secure_url uploaded
    ∧ Product.imagePublicId p' = public_id uploaded
    ∧ assets (updateProduct castObjectId parseFloat req io_ok world).2
      = {[public_id uploaded]} ∪ (assets world ∖ {[Product.imagePublicId lamp]}).
Proof.
  intros req.
  destruct (update_replaces_image_pair castObjectId parseFloat req io_ok world
              lamp_id lamp alice)
    as (p' & Hp' & res & Hres & Hu & Hi & Ha);
    [reflexivity|reflexivity|reflexivity|reflexivity|discriminate
    |vm_compute; reflexivity|].
  injection Hres as <-. by exists p'.
Defined.

Lemma lamp_valid : valid_doc lamp.
Proof.
  unfold valid_doc, trimmed.
  split_and!; try reflexivity; try discriminate; try (cbn; lia).
  - apply (bool_decide_eq_true_1 _). vm_compute. reflexivity.
  - intros n Hn. injection Hn as <-. split; reflexivity.
Qed.

(** The one-product catalog is within the schema, and stays so. *)
Lemma run_keeps_documents_valid_witness :
  let trace :=
    [(PUT_products_id,
      request lamp_id (Some alice) (Body.mk (Some "Reading lamp") None None None None) None,
      io_ok);
     (POST_products, request "" (Some bob) lamp_form (Some photo), io_ok)] in
  map_Forall (fun _ p => valid_doc p)
    (products (run castObjectId textSearch parseFloat trace world)).
Proof.
  intros trace.
  apply (run_keeps_documents_valid castObjectId textSearch parseFloat trace world).
  apply map_Forall_singleton. exact lamp_valid.
Defined.

Lemma sample_pages_servable (n size : string) (category : option string) (k m : Z) :
  Js.parseInt (Some n) = Some k -> 0 <= k ->
  Js.parseInt (Some size) = Some m -> 0 <= m ->
  servable castObjectId (query (Sample.page n size category)).
Proof.
  intros Hk Hk0 Hm Hm0. split_and!; cbn.
  - intros k' Hk'. congruence.
  - intros m' Hm'. congruence.
  - intros s Hs. discriminate Hs.
Qed.

(** The first page of two of the three-product catalog. *)
Lemma page_is_newest_first_witness :
  StronglySorted newer_first
    (page_docs (getProducts castObjectId textSearch (Sample.page "1" "2" None) io_ok
                  Sample.shop).1)
  ∧ page_docs (getProducts castObjectId textSearch (Sample.page "1" "2" None) io_ok
                 Sample.shop).1
    = [Sample.chair; Sample.book].
Proof.
  split; [|vm_compute; reflexivity].
  apply (page_is_newest_first castObjectId textSearch (Sample.page "1" "2" None) io_ok
           Sample.shop).
  apply (sample_pages_servable "1" "2" None 1 2); [reflexivity|lia|reflexivity|lia].
Defined.



(** The category route and the listing route, asked for the books. *)
Lemma category_route_agrees_witness :
  let req1 :=
    {| params := Params.mk "" "Books"; query := Query.mk (Some "1") (Some "5") None None None;
       body := no_body; file := None; user := None |} in
  let req2 := Sample.page "1" "5" (Some "Books") in
  let r1 := (getProductsByCategory castObjectId textSearch req1 io_ok Sample.shop).1 in
  let r2 := (getProducts castObjectId textSearch req2 io_ok Sample.shop).1 in
  status r1 = status r2 ∧ success r1 = success r2 ∧ data r1 = data r2
  ∧ page_docs r1 = [Sample.book].
Proof.
  intros req1 req2 r1 r2.
  destruct (category_route_agrees castObjectId textSearch req1 req2 io_ok io_ok Sample.shop)
    as (H1 & H2 & H3); [discriminate|reflexivity|].
  split_and!; [exact H1|exact H2|exact H3|vm_compute; reflexivity].
Defined.

(** Alice logs in at the server that signs everybody in as Alice. *)
Lemma session_token_is_sent_witness :
  let st' := (Client.handleLogin " alice@example.com " "secret1" Sample.auth_server
                Sample.logged_out).1 in
  Client.currentToken st' = Client.token_of "jwt-of-alice"
  ∧ Client.localStorage st' = Some "jwt-of-alice"
  ∧ Client.api_headers st'
    = [("Content-Type", "application/json"); ("Authorization", "Bearer jwt-of-alice")]
  ∧ Client.api_headers (Client.logout st').1 = [("Content-Type", "application/json")].
Proof.
  intros st'.
  destruct (session_token_is_sent Sample.auth_server Sample.logged_out
              " alice@example.com " "secret1"
              {| Client.j_message := Some "Login successful";
                 Client.j_data := Some Sample.session |}
              Sample.session "jwt-of-alice")
    as (H1 & _ & H3 & H4 & _ & H6);
    [vm_compute; discriminate|discriminate|reflexivity|reflexivity|reflexivity
    |discriminate|].
  split_and!; [exact H1|exact H3|exact H4|exact H6].
Defined.

(** Alice looks at a listing of her lamp and Bob's chair. *)
Lemma cards_of_listing_witness :
  ∃ cards : list Client.Card,
    Client.render Sample.logged_in [Sample.lamp_json; Sample.chair_json]
      = (Client.appendCard <$> cards, None)
    ∧ Client.c_delete <$> cards = [Some (Client.p_id Sample.lamp_json); None].
Proof.
  destruct (cards_of_listing Sample.logged_in [Sample.lamp_json; Sample.chair_json])
    as (cards & Hr & _).
  - repeat constructor; by eexists.
  - exists cards. split; [exact Hr|].
    assert (Hv : Client.render Sample.logged_in [Sample.lamp_json; Sample.chair_json]
                 = (Client.appendCard <$>
                      [{| Client.c_image := Client.p_imageURL Sample.lamp_json;
                          Client.c_title := "Desk lamp";
                          Client.c_description := "A lamp for the desk";
                          Client.c_price := Some (Js.Finite (25 # 1));
                          Client.c_category := "Home & Garden";
                          Client.c_shop := "Alice's Shop";
                          Client.c_delete := Some (Client.p_id Sample.lamp_json) |};
                       {| Client.c_image := Client.p_imageURL Sample.chair_json;
                          Client.c_title := "Garden chair";
                          Client.c_description := "A folding chair";
                          Client.c_price := None;
                          Client.c_category := "Home & Garden";
                          Client.c_shop := "bob";
                          Client.c_delete := None |}], None))
      by (vm_compute; reflexivity).
    rewrite Hv in Hr.
    destruct cards as [|c1 [|c2 [|c3 cards]]]; try discriminate Hr.
    cbn in Hr. by injection Hr as <- <-.
Defined.

(** A listing of the lamp, a product without owner, and the chair. *)
Lemma ownerless_product_stops_listing_witness :
  ∃ (cards : list Client.Card) (message : string),
    Client.render Sample.logged_in
      ([Sample.lamp_json] ++ Sample.orphan_json :: [Sample.chair_json])
      = (Client.appendCard <$> cards, Some message)
    ∧ length cards = 1%nat.
Proof.
  apply (ownerless_product_stops_listing Sample.logged_in [Sample.lamp_json]
           [Sample.chair_json] Sample.orphan_json); [|reflexivity].
  repeat constructor. by eexists.
Defined.
